(** * Weather MCP servers: a shallow embedding and its properties

    The repository holds three small tool servers, each exposing one tool
    [getWeather]:

    - [OpenMeteo]       (src/index.ts): coordinates, Nominatim reverse
                        geocoding, Open-Meteo forecast, zod validation;
    - [AccuWeather]     (first unit of part_000): coordinates with a
                        fallback to the inbound request, AccuWeather
                        location and current-conditions calls, an API key;
    - [CountryWeather]  (second unit of part_000): a country name with a
                        fallback to the CF-IPCountry header, Open-Meteo
                        geocoding and forecast, no validation.

    Module [Js] holds what the three share of the JavaScript runtime:
    strings, numbers and their printing, values, the effect monad of a
    handler, and a model of the zod validators the sources build.

    Conventions of the embedding.
    - A JavaScript string is the byte string of its UTF-8 encoding.
    - A JavaScript number is an exact rational ([Q]): the arithmetic of the
      sources is carried out without the rounding of IEEE doubles, and NaN
      and the infinities are left out.
    - An asynchronous handler is a function of the outside world (what each
      HTTP request is answered with) that yields its result or the value it
      throws, together with the effects it performed, in order.

    The definitions come first: the runtime, the three servers, sample
    data.  The facts follow: strings, numbers, texts, validation, runs of
    the handlers, the properties of the servers, and last what else the
    handlers and their helpers do: the requests they send, the answers
    they give when a provider fails or has nothing, their fallbacks. *)

From Stdlib Require Import String Ascii List Bool ZArith NArith QArith Qround Qabs.
From Stdlib Require Import Lia Lqa DecimalString DecimalPos DecimalN.
Import ListNotations.

Local Open Scope list_scope.
Local Open Scope string_scope.

(* ====================================================================== *)
(** * The JavaScript runtime                                               *)
(* ====================================================================== *)

Module Js.

(** ** Strings *)

Definition LF : ascii := "010"%char.
Definition TAB : ascii := "009"%char.

Definition code (c : ascii) : N := N_of_ascii c.

Fixpoint string_rev (s : string) : string :=
  match s with
  | EmptyString => EmptyString
  | String c s' => string_rev s' ++ String c EmptyString
  end.

(** [join sep l]: Array.prototype.join on strings. *)
Fixpoint join (sep : string) (l : list string) : string :=
  match l with
  | [] => ""
  | [x] => x
  | x :: rest => x ++ sep ++ join sep rest
  end.

(** The white space and line terminators of ECMAScript (WhiteSpace and
    LineTerminator productions), by the length of their UTF-8 encoding.

    One byte:    U+0009 U+000A U+000B U+000C U+000D U+0020
    Two bytes:   U+00A0 (C2 A0)
    Three bytes: U+1680 (E1 9A 80), U+2000..U+200A (E2 80 80..8A),
                 U+2028 U+2029 (E2 80 A8, A9), U+202F (E2 80 AF),
                 U+205F (E2 81 9F), U+3000 (E3 80 80), U+FEFF (EF BB BF). *)
Definition ws1 (c : ascii) : bool :=
  let n := code c in
  ((9 <=? n) && (n <=? 13) || (n =? 32))%N.

Definition ws2 (c1 c2 : ascii) : bool :=
  ((code c1 =? 194) && (code c2 =? 160))%N.

Definition ws3 (c1 c2 c3 : ascii) : bool :=
  let a := code c1 in
  let b := code c2 in
  let c := code c3 in
  ((a =? 225) && (b =? 154) && (c =? 128)
   || (a =? 226) && (b =? 128)
      && ((128 <=? c) && (c <=? 138) || (c =? 168) || (c =? 169) || (c =? 175))
   || (a =? 226) && (b =? 129) && (c =? 159)
   || (a =? 227) && (b =? 128) && (c =? 128)
   || (a =? 239) && (b =? 187) && (c =? 191))%N.

(** String.prototype.trimStart. *)
Fixpoint trimStart (s : string) : string :=
  match s with
  | EmptyString => s
  | String c1 s1 =>
      if ws1 c1 then trimStart s1
      else
        match s1 with
        | EmptyString => s
        | String c2 s2 =>
            if ws2 c1 c2 then trimStart s2
            else
              match s2 with
              | EmptyString => s
              | String c3 s3 => if ws3 c1 c2 c3 then trimStart s3 else s
              end
        end
  end.

(** The same scan over the reversed string: the bytes of a white space
    character come last byte first. *)
Fixpoint trimStartRev (s : string) : string :=
  match s with
  | EmptyString => s
  | String c1 s1 =>
      if ws1 c1 then trimStartRev s1
      else
        match s1 with
        | EmptyString => s
        | String c2 s2 =>
            if ws2 c2 c1 then trimStartRev s2
            else
              match s2 with
              | EmptyString => s
              | String c3 s3 => if ws3 c3 c2 c1 then trimStartRev s3 else s
              end
        end
  end.

(** String.prototype.trimEnd and String.prototype.trim. *)
Definition trimEnd (s : string) : string :=
  string_rev (trimStartRev (string_rev s)).

Definition trim (s : string) : string := trimEnd (trimStart s).

(** The lines of a text: the pieces between line feeds. *)
Fixpoint lines (s : string) : list string :=
  match s with
  | EmptyString => [EmptyString]
  | String c s' =>
      if Ascii.eqb c LF then EmptyString :: lines s'
      else
        match lines s' with
        | l :: ls => String c l :: ls
        | [] => [String c EmptyString]
        end
  end.

(** A string with no line feed in it. *)
Fixpoint single_line (s : string) : bool :=
  match s with
  | EmptyString => true
  | String c s' => negb (Ascii.eqb c LF) && single_line s'
  end.

(** [starts_with p s]: String.prototype.startsWith. *)
Fixpoint starts_with (p s : string) : bool :=
  match p with
  | EmptyString => true
  | String a p' =>
      match s with
      | EmptyString => false
      | String b s' => Ascii.eqb a b && starts_with p' s'
      end
  end.

(** An ASCII character that is not white space: it ends every scan of
    [trimStart] and of [trimStartRev], whatever surrounds it. *)
Definition plain (c : ascii) : bool := ((code c <? 128)%N && negb (ws1 c))%bool.

Definition is_digit (c : ascii) : bool := ((48 <=? code c) && (code c <=? 57))%N.

Fixpoint all_digits (s : string) : bool :=
  match s with
  | EmptyString => true
  | String c s' => is_digit c && all_digits s'
  end.




(** ** Numbers *)

(** A JavaScript number, idealised as the rational it denotes. *)
Definition number : Set := Q.

Definition string_of_N (n : N) : string :=
  NilZero.string_of_uint (N.to_uint n).

(** The decimal digits of a non-negative integer. *)
Definition digits_of (z : Z) : string := string_of_N (Z.to_N z).

Definition pow10 (e : Z) : Q := Qpower 10 e.

(** The integer nearest to [x], the larger one of two ("Let n be an
    integer for which n / 10^f - x is as close to zero as possible. If
    there are two such n, pick the larger n."). *)
Definition nearest (x : Q) : Z := Qfloor (x + (1 # 2)).

Fixpoint zeros (n : nat) : string :=
  match n with
  | O => ""
  | S n' => String "0" (zeros n')
  end.

Fixpoint drop_zeros (s : string) : string :=
  match s with
  | String c s' => if Ascii.eqb c "0" then drop_zeros s' else s
  | EmptyString => s
  end.

Definition strip_trailing_zeros (s : string) : string :=
  string_rev (drop_zeros (string_rev s)).

(** The [n] of Number::toString for [0 < x]: [10^(n-1) <= x < 10^n]. *)
Definition magnitude (x : Q) : Z :=
  let d := (Z.of_nat (String.length (digits_of (Qnum x)))
            - Z.of_nat (String.length (digits_of (Zpos (Qden x)))))%Z in
  if Qle_bool (pow10 d) x then (d + 1)%Z else d.

(** The digits [s] and the exponent [n] of Number::toString ("let n, k
    and s be integers such that k >= 1, 10^(k-1) <= s < 10^k,
    s * 10^(n-k) is x, and k is as small as possible").  A double has at
    most 17 significant digits: [x] is taken to 17 significant digits and
    the trailing zeros go, which is exact for every [x] written with no
    more than 17. *)
Definition significand (x : Q) : string * Z :=
  let n := magnitude x in
  let s := nearest (x * pow10 (17 - n)) in
  let '(s, n) := if (s =? 10 ^ 17)%Z then ((10 ^ 16)%Z, (n + 1)%Z) else (s, n) in
  (strip_trailing_zeros (digits_of s), n).

Definition Number_toString_positive (x : Q) : string :=
  let '(s, n) := significand x in
  let k := Z.of_nat (String.length s) in
  if ((k <=? n) && (n <=? 21))%Z then
    s ++ zeros (Z.to_nat (n - k))
  else if ((0 <? n) && (n <=? 21))%Z then
    substring 0 (Z.to_nat n) s ++ "." ++ substring (Z.to_nat n) (Z.to_nat (k - n)) s
  else if ((-6 <? n) && (n <=? 0))%Z then
    "0." ++ zeros (Z.to_nat (- n)) ++ s
  else
    let e := (n - 1)%Z in
    let exponent := "e" ++ (if (e <? 0)%Z then "-" else "+") ++ digits_of (Z.abs e) in
    match s with
    | String d EmptyString => String d exponent
    | String d rest => String d ("." ++ rest ++ exponent)
    | EmptyString => exponent
    end.

(** Number::toString, radix 10: what a template literal interpolates for
    a number. *)
Definition Number_toString (x : number) : string :=
  if Qeq_bool x 0 then "0"
  else if Qle_bool 0 x then Number_toString_positive x
  else "-" ++ Number_toString_positive (Qabs x).

(** Number.prototype.toFixed(1). *)
Definition toFixed1 (x : number) : string :=
  let s := if Qle_bool 0 x then "" else "-" in
  let a := Qabs x in
  if Qle_bool (pow10 21) a then s ++ Number_toString a
  else
    let n := nearest (a * 10) in
    s ++ digits_of (n / 10) ++ "." ++ digits_of (n mod 10).

(** ** Reading a displayed number back *)






(** ** Values *)

#[warnings="-register-all"]
Inductive JsValue : Type :=
  | JUndefined
  | JNull
  | JBool (b : bool)
  | JNumber (x : number)
  | JBigInt (z : Z)
  | JString (s : string)
  | JSymbol (description : string)
  | JFunction (props : list (string * JsValue))
  | JArray (items : list JsValue)
  | JObject (props : list (string * JsValue)).

(** The [typeof] operator. *)
Definition typeof (v : JsValue) : string :=
  match v with
  | JUndefined => "undefined"
  | JNull => "object"
  | JBool _ => "boolean"
  | JNumber _ => "number"
  | JBigInt _ => "bigint"
  | JString _ => "string"
  | JSymbol _ => "symbol"
  | JFunction _ => "function"
  | JArray _ => "object"
  | JObject _ => "object"
  end.

(** ToBoolean. *)
Definition truthy (v : JsValue) : bool :=
  match v with
  | JUndefined | JNull => false
  | JBool b => b
  | JNumber x => negb (Qeq_bool x 0)
  | JBigInt z => negb (z =? 0)%Z
  | JString s => negb (s =? "")
  | JSymbol _ | JFunction _ | JArray _ | JObject _ => true
  end.

(** The properties of an object, own and inherited, as an association
    list; the first binding of a key is the one that counts. *)
Fixpoint lookup {A : Type} (k : string) (props : list (string * A)) : option A :=
  match props with
  | [] => None
  | (k', v) :: rest => if k' =? k then Some v else lookup k rest
  end.

Definition props_of (v : JsValue) : list (string * JsValue) :=
  match v with
  | JObject props | JFunction props => props
  | _ => []
  end.

(** [k in v], for [v] an object. *)
Definition has_property (k : string) (v : JsValue) : bool :=
  match lookup k (props_of v) with
  | Some _ => true
  | None => false
  end.

(** [v.k] (or [v?.k]) for [v] neither undefined nor null. *)
Definition property (k : string) (v : JsValue) : JsValue :=
  match lookup k (props_of v) with
  | Some x => x
  | None => JUndefined
  end.

(** [v?.k]: optional chaining. *)
Definition opt_property (k : string) (v : JsValue) : JsValue :=
  match v with
  | JUndefined | JNull => JUndefined
  | _ => property k v
  end.

(** An [Error] instance of the given class, with its message. *)
Definition error_object (name message : string) : JsValue :=
  JObject [("name", JString name); ("message", JString message)].

(** ** Handlers and their effects *)

(** An outbound HTTP GET: the address, the query parameters appended
    through [URLSearchParams] (empty when the query is written into the
    address itself), and the request headers. *)
Record Request : Type := {
  url : string;
  query : list (string * string);
  headers : list (string * string)
}.

Inductive Effect : Type :=
  | Fetch (r : Request)
  | ConsoleError (args : list JsValue).

(** The outside world: for each request, the JSON body that
    [await (await fetch(...)).json()] evaluates to, or the value one of
    the two steps throws. *)
Definition World : Type := Request -> JsValue + JsValue.

(** A computation yields the effects it performed and either the value it
    threw ([inl]) or its result ([inr]). *)
Definition M (A : Type) : Type := World -> list Effect * (JsValue + A).

Definition ret {A : Type} (a : A) : M A := fun _ => ([], inr a).

Definition bind {A B : Type} (m : M A) (k : A -> M B) : M B :=
  fun w =>
    match m w with
    | (t, inl e) => (t, inl e)
    | (t, inr a) => let '(t', r) := k a w in ((t ++ t')%list, r)
    end.

Definition throw {A : Type} (e : JsValue) : M A := fun _ => ([], inl e).

(** [try { m } catch (error) { h error }]. *)
Definition try_catch {A : Type} (m : M A) (h : JsValue -> M A) : M A :=
  fun w =>
    match m w with
    | (t, inl e) => let '(t', r) := h e w in ((t ++ t')%list, r)
    | (t, inr a) => (t, inr a)
    end.

(** [await (await fetch(r)).json()]. *)
Definition fetch_json (r : Request) : M JsValue :=
  fun w =>
    match w r with
    | inl e => ([Fetch r], inl e)
    | inr body => ([Fetch r], inr body)
    end.

(** [console.error(...args)]. *)
Definition console_error (args : list JsValue) : M unit :=
  fun _ => ([ConsoleError args], inr tt).

Declare Scope js_scope.
Delimit Scope js_scope with js.
Notation "x <- m ;; k" := (bind m (fun x => k))
  (at level 61, m at next level, right associativity) : js_scope.
Notation "m ;; k" := (bind m (fun _ => k))
  (at level 61, right associativity) : js_scope.
Local Open Scope js_scope.

(** The requests a run sent, in order. *)
Fixpoint http_calls (t : list Effect) : list Request :=
  match t with
  | [] => []
  | Fetch r :: rest => r :: http_calls rest
  | ConsoleError _ :: rest => http_calls rest
  end.

(** The value a statically typed read of a validated value yields; a read
    that does not fit throws, as a property access on [undefined] does. *)
Definition typed {A : Type} (view : JsValue -> option A) (v : JsValue) : M A :=
  match view v with
  | Some a => ret a
  | None => throw (error_object "TypeError" "Cannot read properties of undefined")
  end.

(** What a tool call answers: [{ isError, content: [{ type: 'text', text }] }];
    [isError] left out counts as [false]. *)
Record ToolResult : Type := {
  isError : bool;
  text : string
}.

(** The [unit] parameter: [z.enum(['celsius', 'fahrenheit'])]. *)
Inductive Unit : Type := celsius | fahrenheit.

(** [.optional().default('fahrenheit')]. *)
Definition unit_or_default (u : option Unit) : Unit :=
  match u with
  | Some u => u
  | None => fahrenheit
  end.

(** ** invariant (package @epic-web/invariant) *)

(** [invariant(condition, message)] throws an [InvariantError] carrying
    [message] when [condition] is falsy. *)
Definition invariant (condition : bool) (message : string) : M unit :=
  if condition then ret tt else throw (error_object "InvariantError" message).

(** ** zod *)

(** The validators the sources build. *)
#[warnings="-register-all"]
Inductive ZodType : Type :=
  | ZString
  | ZNumber
  | ZOptional (t : ZodType)
  | ZObject (shape : list (string * ZodType)).

Record ZodIssue : Type := {
  path : list string;
  expected : string;
  received : string
}.

(** zod's own classification of a value ([getParsedType]). *)
Definition parsed_type (v : JsValue) : string :=
  match v with
  | JNull => "null"
  | JArray _ => "array"
  | _ => typeof v
  end.

(** Validation proper. An object validator reads each key of its shape
    off the input (a missing key reads as [undefined]), reports the
    issues of all keys, and returns a fresh object holding the keys of
    the shape only: unknown keys are stripped, and a key is set when it
    is present in the input or its value is not [undefined]. *)
Fixpoint validate (t : ZodType) (at_path : list string) (v : JsValue)
  : list ZodIssue + JsValue :=
  match t with
  | ZString =>
      match v with
      | JString _ => inr v
      | _ => inl [{| path := at_path; expected := "string"; received := parsed_type v |}]
      end
  | ZNumber =>
      match v with
      | JNumber _ => inr v
      | _ => inl [{| path := at_path; expected := "number"; received := parsed_type v |}]
      end
  | ZOptional t' =>
      match v with
      | JUndefined => inr JUndefined
      | _ => validate t' at_path v
      end
  | ZObject shape =>
      match v with
      | JObject props =>
          let fix fields (sh : list (string * ZodType))
            : list ZodIssue + list (string * JsValue) :=
            match sh with
            | [] => inr []
            | (k, tk) :: rest =>
                match validate tk (at_path ++ [k])%list (property k v), fields rest with
                | inl i1, inl i2 => inl (i1 ++ i2)%list
                | inl i1, inr _ => inl i1
                | inr _, inl i2 => inl i2
                | inr x, inr out =>
                    match x with
                    | JUndefined =>
                        if has_property k v then inr ((k, x) :: out) else inr out
                    | _ => inr ((k, x) :: out)
                    end
                end
            end in
          match fields shape with
          | inl issues => inl issues
          | inr out => inr (JObject out)
          end
      | _ => inl [{| path := at_path; expected := "object"; received := parsed_type v |}]
      end
  end.

Definition issue_text (i : ZodIssue) : string :=
  join "." (path i) ++ ": expected " ++ expected i ++ ", received " ++ received i.

(** The [ZodError] that [parse] throws.  Its [message] is a rendering of
    the issue list; zod prints the list as JSON, here it is one line per
    issue. *)
Definition ZodError (issues : list ZodIssue) : JsValue :=
  error_object "ZodError" (join (String LF "") (map issue_text issues)).

(** [schema.parse(v)]. *)
Definition parse (t : ZodType) (v : JsValue) : M JsValue :=
  match validate t [] v with
  | inl issues => throw (ZodError issues)
  | inr out => ret out
  end.

(** Typed reads of validated values. *)
Definition as_string (v : JsValue) : option string :=
  match v with JString s => Some s | _ => None end.

Definition as_number (v : JsValue) : option number :=
  match v with JNumber x => Some x | _ => None end.

(** A field declared [.optional()]: absent is [undefined]. *)
Definition as_optional {A : Type} (view : JsValue -> option A) (v : JsValue)
  : option (option A) :=
  match v with
  | JUndefined => Some None
  | _ => option_map Some (view v)
  end.

End Js.

Import Js.
Local Open Scope js_scope.

(* ====================================================================== *)
(** * Helpers the sources share                                            *)
(* ====================================================================== *)

(** [getWeatherDescription] stands, word for word, in src/index.ts and in
    the country server; [getErrorMessage] in src/index.ts and in the
    AccuWeather server. *)
Module Shared.

(** The object literal [weatherCodes : Record<number, string>].  Its keys
    are the canonical decimal strings of the integers below, and
    [weatherCodes[code]] reads the key [ToString(code)]: it finds the
    entry whose key is the number [code]. *)
Definition weatherCodes : list (Z * string) :=
  [ (0, "Clear sky");
    (1, "Mainly clear");
    (2, "Partly cloudy");
    (3, "Overcast");
    (45, "Foggy");
    (48, "Depositing rime fog");
    (51, "Light drizzle");
    (53, "Moderate drizzle");
    (55, "Dense drizzle");
    (56, "Light freezing drizzle");
    (57, "Dense freezing drizzle");
    (61, "Slight rain");
    (63, "Moderate rain");
    (65, "Heavy rain");
    (66, "Light freezing rain");
    (67, "Heavy freezing rain");
    (71, "Slight snow fall");
    (73, "Moderate snow fall");
    (75, "Heavy snow fall");
    (77, "Snow grains");
    (80, "Slight rain showers");
    (81, "Moderate rain showers");
    (82, "Violent rain showers");
    (85, "Slight snow showers");
    (86, "Heavy snow showers");
    (95, "Thunderstorm");
    (96, "Thunderstorm with slight hail");
    (99, "Thunderstorm with heavy hail") ]%Z.

(** [table[code]]: the value, or [undefined] ([None]). *)
Fixpoint at_number (table : list (Z * string)) (code : number) : option string :=
  match table with
  | [] => None
  | (k, v) :: rest => if Qeq_bool code (inject_Z k) then Some v else at_number rest code
  end.

(** [a || b] for [a] a string or [undefined]. *)
Definition or_else (a : option string) (b : string) : string :=
  match a with
  | Some s => if s =? "" then b else s
  | None => b
  end.

Definition getWeatherDescription (code : number) : string :=
  or_else (at_number weatherCodes code) "Unknown".

(** The string a value of type string holds. *)
Definition string_value (v : JsValue) : string :=
  match v with
  | JString s => s
  | _ => ""
  end.

Definition getErrorMessage (error : JsValue) : M string :=
  if typeof error =? "string" then ret (string_value error)
  else if truthy error
          && (typeof error =? "object")
          && has_property "message" error
          && (typeof (property "message" error) =? "string")
  then ret (string_value (property "message" error))
  else
    console_error [JString "Unable to get error message for error"; error] ;;
    ret "Unknown Error".

(** The two fixed pieces of the handlers' template literals. *)
Definition nl : string := String LF "".
Definition closing_indent : string :=
  String TAB (String TAB (String TAB (String TAB
    (String TAB (String TAB (String TAB (String TAB "")))))))  .

End Shared.

(* ====================================================================== *)
(** * src/index.ts: coordinates, Nominatim and Open-Meteo                  *)
(* ====================================================================== *)

Module OpenMeteo.
Import Shared.

Definition weatherResultSchema : ZodType :=
  ZObject
    [ ("current",
       ZObject
         [ ("temperature_2m", ZNumber);
           ("relative_humidity_2m", ZNumber);
           ("wind_speed_10m", ZNumber);
           ("weather_code", ZNumber) ]) ].

Definition nominatimResponseSchema : ZodType :=
  ZObject
    [ ("address",
       ZOptional
         (ZObject
            [ ("city", ZOptional ZString);
              ("town", ZOptional ZString);
              ("village", ZOptional ZString);
              ("country", ZOptional ZString) ])) ].

(** The static types of the two schemas ([z.infer]). *)
Record Current : Type := {
  temperature_2m : number;
  relative_humidity_2m : number;
  wind_speed_10m : number;
  weather_code : number
}.

Record WeatherResult : Type := { current : Current }.

Module Nominatim.

Record Address : Type := {
  city : option string;
  town : option string;
  village : option string;
  country : option string
}.

Record Response : Type := { address : option Address }.

End Nominatim.

Definition as_Current (v : JsValue) : option Current :=
  match as_number (property "temperature_2m" v),
        as_number (property "relative_humidity_2m" v),
        as_number (property "wind_speed_10m" v),
        as_number (property "weather_code" v) with
  | Some t, Some h, Some w, Some c =>
      Some {| temperature_2m := t; relative_humidity_2m := h;
              wind_speed_10m := w; weather_code := c |}
  | _, _, _, _ => None
  end.

Definition as_WeatherResult (v : JsValue) : option WeatherResult :=
  match v with
  | JObject _ => option_map (fun c => {| current := c |}) (as_Current (property "current" v))
  | _ => None
  end.

Definition as_Address (v : JsValue) : option Nominatim.Address :=
  match as_optional as_string (property "city" v),
        as_optional as_string (property "town" v),
        as_optional as_string (property "village" v),
        as_optional as_string (property "country" v) with
  | Some c, Some t, Some vi, Some co =>
      Some {| Nominatim.city := c; Nominatim.town := t;
              Nominatim.village := vi; Nominatim.country := co |}
  | _, _, _, _ => None
  end.

Definition as_Response (v : JsValue) : option Nominatim.Response :=
  match v with
  | JObject _ =>
      option_map (fun a => {| Nominatim.address := a |})
                 (as_optional as_Address (property "address" v))
  | _ => None
  end.

(** What [reverseGeocode] returns. *)
Record Location : Type := {
  city : string;
  country : string
}.

(** [data.address?.field]. *)
Definition address_field (data : Nominatim.Response)
    (field : Nominatim.Address -> option string) : option string :=
  match Nominatim.address data with
  | Some a => field a
  | None => None
  end.

Definition reverseGeocode (latitude longitude : number) : M Location :=
  json <- fetch_json
            {| url := "https://nominatim.openstreetmap.org/reverse?lat="
                      ++ Number_toString latitude ++ "&lon="
                      ++ Number_toString longitude ++ "&format=json";
               query := [];
               headers := [("User-Agent", "Weather MCP Tool/1.0")] |} ;;
  data <- parse nominatimResponseSchema json ;;
  data <- typed as_Response data ;;
  ret {| city :=
           or_else (address_field data Nominatim.city)
             (or_else (address_field data Nominatim.town)
                (or_else (address_field data Nominatim.village)
                   "Unknown location"));
         country := or_else (address_field data Nominatim.country) "Unknown country" |}.

Definition celsiusToFahrenheit (celsius : number) : number :=
  (celsius * 9) / 5 + 32.

Definition forecast_request (latitude longitude : number) : Request :=
  {| url := "https://api.open-meteo.com/v1/forecast?latitude="
            ++ Number_toString latitude ++ "&longitude="
            ++ Number_toString longitude
            ++ "&current=temperature_2m,relative_humidity_2m,wind_speed_10m,weather_code";
     query := [];
     headers := [] |}.

(** The template literal of the handler and its two preparatory
    bindings, [temperature] and [weatherDescription]. *)
Definition weatherText (loc : Location) (weatherData : WeatherResult) (unit : Unit)
  : string :=
  let temperature :=
    match unit with
    | fahrenheit => celsiusToFahrenheit (temperature_2m (current weatherData))
    | celsius => temperature_2m (current weatherData)
    end in
  let weatherDescription := getWeatherDescription (weather_code (current weatherData)) in
  trim
    (nl
     ++ ("Weather in " ++ city loc ++ ", " ++ country loc ++ ":") ++ nl
     ++ ("• Temperature: " ++ toFixed1 temperature ++ "°"
         ++ match unit with fahrenheit => "F" | celsius => "C" end) ++ nl
     ++ ("• Humidity: " ++ Number_toString (relative_humidity_2m (current weatherData))
         ++ "%") ++ nl
     ++ ("• Wind Speed: " ++ Number_toString (wind_speed_10m (current weatherData))
         ++ " km/h") ++ nl
     ++ ("• Conditions: " ++ weatherDescription) ++ nl
     ++ closing_indent).

Definition data_unavailable : string :=
  "Weather data not available or invalid API response".

(** The [getWeather] tool. *)
Definition getWeather (latitude longitude : number) (unit : Unit) : M ToolResult :=
  try_catch
    (loc <- reverseGeocode latitude longitude ;;
     weatherJson <- fetch_json (forecast_request latitude longitude) ;;
     weatherData <- parse weatherResultSchema weatherJson ;;
     if negb (truthy (opt_property "current" weatherData)) then
       ret {| isError := true; text := data_unavailable |}
     else
       weatherData <- typed as_WeatherResult weatherData ;;
       ret {| isError := false; text := weatherText loc weatherData unit |})
    (fun error =>
       message <- getErrorMessage error ;;
       ret {| isError := true; text := message |}).

End OpenMeteo.

(* ====================================================================== *)
(** * part_000, first unit: coordinates and AccuWeather                    *)
(* ====================================================================== *)

Module AccuWeather.
Import Shared.

(** [interface Env { ACCUWEATHER_API_KEY: string }]: the binding as the
    platform hands it over, [undefined] ([None]) when it was not
    configured. *)
Record Env : Type := { ACCUWEATHER_API_KEY : option string }.

(** The inbound [Request] that [requestStorage] carries: of it the
    handler reads the platform's [cf] object, and of that [latitude] and
    [longitude], taken as the values they are. *)
Record CfProperties : Type := {
  cf_latitude : JsValue;
  cf_longitude : JsValue
}.

Record IncomingRequest : Type := { cf : option CfProperties }.

Definition accuWeatherLocationSchema : ZodType :=
  ZObject
    [ ("Key", ZString);
      ("LocalizedName", ZString);
      ("Country", ZObject [("LocalizedName", ZString)]) ].

Definition valueUnitSchema : ZodType :=
  ZObject [("Value", ZNumber); ("Unit", ZString)].

Definition accuWeatherCurrentConditionsSchema : ZodType :=
  ZObject
    [ ("WeatherText", ZString);
      ("Temperature",
       ZObject [("Metric", valueUnitSchema); ("Imperial", valueUnitSchema)]);
      ("RelativeHumidity", ZOptional ZNumber);
      ("Wind",
       ZOptional
         (ZObject
            [ ("Speed",
               ZObject [("Metric", valueUnitSchema); ("Imperial", valueUnitSchema)]) ])) ].

(** The static types of the schemas. *)
Record ValueUnit : Type := { Value : number; Unit : string }.
Record DualUnit : Type := { Metric : ValueUnit; Imperial : ValueUnit }.
Record WindData : Type := { Speed : DualUnit }.

Record CurrentConditions : Type := {
  WeatherText : string;
  Temperature : DualUnit;
  RelativeHumidity : option number;
  Wind : option WindData
}.

Record LocationData : Type := {
  Key : string;
  LocalizedName : string;
  Country_LocalizedName : string
}.

Definition as_ValueUnit (v : JsValue) : option ValueUnit :=
  match as_number (property "Value" v), as_string (property "Unit" v) with
  | Some x, Some u => Some {| Value := x; Unit := u |}
  | _, _ => None
  end.

Definition as_DualUnit (v : JsValue) : option DualUnit :=
  match as_ValueUnit (property "Metric" v), as_ValueUnit (property "Imperial" v) with
  | Some m, Some i => Some {| Metric := m; Imperial := i |}
  | _, _ => None
  end.

Definition as_WindData (v : JsValue) : option WindData :=
  option_map (fun s => {| Speed := s |}) (as_DualUnit (property "Speed" v)).

Definition as_CurrentConditions (v : JsValue) : option CurrentConditions :=
  match as_string (property "WeatherText" v),
        as_DualUnit (property "Temperature" v),
        as_optional as_number (property "RelativeHumidity" v),
        as_optional as_WindData (property "Wind" v) with
  | Some t, Some temp, Some h, Some w =>
      Some {| WeatherText := t; Temperature := temp;
              RelativeHumidity := h; Wind := w |}
  | _, _, _, _ => None
  end.

Definition as_LocationData (v : JsValue) : option LocationData :=
  match as_string (property "Key" v),
        as_string (property "LocalizedName" v),
        as_string (property "LocalizedName" (property "Country" v)) with
  | Some k, Some n, Some c =>
      Some {| Key := k; LocalizedName := n; Country_LocalizedName := c |}
  | _, _, _ => None
  end.

(** What [getLocationKey] returns. *)
Record Location : Type := {
  locationKey : string;
  city : string;
  country : string
}.

Definition location_request (latitude longitude : number) (apiKey : string) : Request :=
  {| url := "http://dataservice.accuweather.com/locations/v1/cities/geoposition/search";
     query := [ ("apikey", apiKey);
                ("q", Number_toString latitude ++ "," ++ Number_toString longitude);
                ("details", "true") ];
     headers := [] |}.

Definition getLocationKey (latitude longitude : number) (apiKey : string) : M Location :=
  json <- fetch_json (location_request latitude longitude apiKey) ;;
  data <- parse accuWeatherLocationSchema json ;;
  data <- typed as_LocationData data ;;
  ret {| locationKey := Key data;
         city := LocalizedName data;
         country := Country_LocalizedName data |}.

(** [data[0]] for [data] any JSON value. *)
Definition element0 (data : JsValue) : M JsValue :=
  match data with
  | JUndefined | JNull =>
      throw (error_object "TypeError" "Cannot read properties of undefined")
  | JArray (x :: _) => ret x
  | JString (String c _) => ret (JString (String c ""))
  | JObject _ | JFunction _ => ret (property "0" data)
  | _ => ret JUndefined
  end.

Definition conditions_request (locationKey apiKey : string) : Request :=
  {| url := "http://dataservice.accuweather.com/currentconditions/v1/" ++ locationKey;
     query := [("apikey", apiKey); ("details", "true")];
     headers := [] |}.

Definition getCurrentConditions (locationKey apiKey : string) : M CurrentConditions :=
  data <- fetch_json (conditions_request locationKey apiKey) ;;
  first <- element0 data ;;
  conditions <- parse accuWeatherCurrentConditionsSchema first ;;
  typed as_CurrentConditions conditions.

(** [explicit ?? requestStorage.getStore()?.cf?.field]. *)
Definition resolve (explicit : option number) (store : option IncomingRequest)
    (field : CfProperties -> JsValue) : JsValue :=
  match explicit with
  | Some x => JNumber x
  | None =>
      match store with
      | Some request =>
          match cf request with
          | Some properties => field properties
          | None => JUndefined
          end
      | None => JUndefined
      end
  end.

Definition of_optional_string (s : option string) : JsValue :=
  match s with
  | Some s => JString s
  | None => JUndefined
  end.

(** The template literal of the handler and its preparatory binding
    [temperature]. *)
Definition weatherText (loc : Location) (weatherData : CurrentConditions) (unit : Js.Unit)
  : string :=
  let temperature :=
    match unit with
    | fahrenheit => Value (Imperial (Temperature weatherData))
    | celsius => Value (Metric (Temperature weatherData))
    end in
  trim
    (nl
     ++ ("Weather in " ++ city loc ++ ", " ++ country loc ++ ":") ++ nl
     ++ ("• Temperature: " ++ toFixed1 temperature ++ "°"
         ++ match unit with fahrenheit => "F" | celsius => "C" end) ++ nl
     ++ match RelativeHumidity weatherData with
        | Some h =>
            if truthy (JNumber h) then "• Humidity: " ++ Number_toString h ++ "%" else ""
        | None => ""
        end ++ nl
     ++ match Wind weatherData with
        | Some w =>
            "• Wind Speed: " ++ Number_toString (Value (Metric (Speed w)))
            ++ " " ++ Unit (Metric (Speed w))
        | None => ""
        end ++ nl
     ++ ("• Conditions: " ++ WeatherText weatherData) ++ nl
     ++ closing_indent).

Definition latitude_required : string := "Latitude is required and could not be found".
Definition longitude_required : string := "Longitude is required and could not be found".
Definition api_key_required : string := "ACCUWEATHER_API_KEY is required".

(** The [getWeather] tool, for the server's [env] and the request
    [store] that [requestStorage.getStore()] holds during the call. *)
Definition getWeather (env : Env) (store : option IncomingRequest)
    (latitude longitude : option number) (unit : Js.Unit) : M ToolResult :=
  try_catch
    (let lat := resolve latitude store cf_latitude in
     let long := resolve longitude store cf_longitude in
     invariant (typeof lat =? "number") latitude_required ;;
     invariant (typeof long =? "number") longitude_required ;;
     let apiKey := of_optional_string (ACCUWEATHER_API_KEY env) in
     invariant (truthy apiKey) api_key_required ;;
     lat <- typed as_number lat ;;
     long <- typed as_number long ;;
     apiKey <- typed as_string apiKey ;;
     loc <- getLocationKey lat long apiKey ;;
     weatherData <- getCurrentConditions (locationKey loc) apiKey ;;
     ret {| isError := false; text := weatherText loc weatherData unit |})
    (fun error =>
       message <- getErrorMessage error ;;
       ret {| isError := true; text := message |}).

End AccuWeather.

(* ====================================================================== *)
(** * part_000, second unit: a country and Open-Meteo                      *)
(* ====================================================================== *)

Module CountryWeather.
Import Shared.

(** The inbound [Request]: only its headers are read.  The [Headers]
    class keeps names in lower case and [get] lowers the name it is asked
    for; [null] is [None]. *)
Record IncomingRequest : Type := { request_headers : list (string * string) }.

Definition lower (c : ascii) : ascii :=
  let n := code c in
  if ((65 <=? n) && (n <=? 90))%N then ascii_of_N (n + 32) else c.

Fixpoint toLowerCase (s : string) : string :=
  match s with
  | EmptyString => EmptyString
  | String c s' => String (lower c) (toLowerCase s')
  end.

Definition headers_get (name : string) (hs : list (string * string)) : option string :=
  lookup (toLowerCase name) hs.

(** The entries of [GeocodingResult.results] and the [current] block of
    [WeatherResult], as the two interfaces declare them.  The bodies are
    cast to the interfaces, not validated: the handler's two guards are
    evaluated on the body as it came, and what lies behind them is read
    at the declared types. *)
Record GeocodingEntry : Type := {
  name : string;
  latitude : number;
  longitude : number;
  country : string
}.

Record Current : Type := {
  temperature_2m : number;
  relative_humidity_2m : number;
  wind_speed_10m : number;
  weather_code : number
}.

Definition as_GeocodingEntry (v : JsValue) : option GeocodingEntry :=
  match as_string (property "name" v),
        as_number (property "latitude" v),
        as_number (property "longitude" v),
        as_string (property "country" v) with
  | Some n, Some la, Some lo, Some c =>
      Some {| name := n; latitude := la; longitude := lo; country := c |}
  | _, _, _, _ => None
  end.

Definition as_Current (v : JsValue) : option Current :=
  match as_number (property "temperature_2m" v),
        as_number (property "relative_humidity_2m" v),
        as_number (property "wind_speed_10m" v),
        as_number (property "weather_code" v) with
  | Some t, Some h, Some w, Some c =>
      Some {| temperature_2m := t; relative_humidity_2m := h;
              wind_speed_10m := w; weather_code := c |}
  | _, _, _, _ => None
  end.

(** [v.k]: a [TypeError] on [undefined] and [null]. *)
Definition member (k : string) (v : JsValue) : M JsValue :=
  match v with
  | JUndefined | JNull =>
      throw (error_object "TypeError" "Cannot read properties of undefined")
  | _ => ret (property k v)
  end.

(** [v?.[0]]. *)
Definition opt_element0 (v : JsValue) : JsValue :=
  match v with
  | JArray (x :: _) => x
  | JString (String c _) => JString (String c "")
  | JObject _ | JFunction _ => property "0" v
  | _ => JUndefined
  end.

Definition geocoding_request (country : string) : Request :=
  {| url := "https://geocoding-api.open-meteo.com/v1/search?name=" ++ country ++ "&count=1";
     query := [];
     headers := [] |}.

Definition forecast_request (latitude longitude : number) : Request :=
  {| url := "https://api.open-meteo.com/v1/forecast?latitude="
            ++ Number_toString latitude ++ "&longitude="
            ++ Number_toString longitude
            ++ "&current=temperature_2m,relative_humidity_2m,wind_speed_10m,weather_code";
     query := [];
     headers := [] |}.

(** The template literal of the handler. *)
Definition weatherText (place : GeocodingEntry) (current : Current) : string :=
  let weatherDescription := getWeatherDescription (weather_code current) in
  "Weather in " ++ name place ++ ", " ++ country place ++ ":" ++ nl
  ++ "• Temperature: " ++ Number_toString (temperature_2m current) ++ "°C" ++ nl
  ++ "• Humidity: " ++ Number_toString (relative_humidity_2m current) ++ "%" ++ nl
  ++ "• Wind Speed: " ++ Number_toString (wind_speed_10m current) ++ " km/h" ++ nl
  ++ "• Conditions: " ++ weatherDescription.

(** [country ??= request?.headers.get('CF-IPCountry') ?? undefined]. *)
Definition resolve_country (country : option string) (request : option IncomingRequest)
  : option string :=
  match country with
  | Some c => Some c
  | None =>
      match request with
      | Some r => headers_get "CF-IPCountry" (request_headers r)
      | None => None
      end
  end.

(** The [getWeather] tool; it has no [try], what is thrown inside leaves
    the handler. *)
Definition getWeather (request : option IncomingRequest) (country : option string)
  : M ToolResult :=
  match resolve_country country request with
  | None => ret {| isError := true; text := "Country not detected" |}
  | Some country =>
      if country =? "" then ret {| isError := true; text := "Country not detected" |}
      else
        geocodingData <- fetch_json (geocoding_request country) ;;
        results <- member "results" geocodingData ;;
        if negb (truthy (opt_element0 results)) then
          ret {| isError := true; text := "Country not found" |}
        else
          place <- typed as_GeocodingEntry (opt_element0 results) ;;
          weatherData <- fetch_json (forecast_request (latitude place) (longitude place)) ;;
          current <- member "current" weatherData ;;
          if negb (truthy current) then
            ret {| isError := true; text := "Weather data not available" |}
          else
            current <- typed as_Current current ;;
            ret {| isError := false; text := weatherText place current |}
  end.

End CountryWeather.

(* ====================================================================== *)
(** * Sample requests and responses                                        *)
(* ====================================================================== *)

Module Examples.

(** The example of the specification: London, 15.2 degrees, 70 percent,
    12.3 km/h, code 3. *)
Definition london_address : JsValue :=
  JObject
    [ ("place_id", JNumber 1234);
      ("address",
       JObject
         [ ("city", JString "London");
           ("country", JString "United Kingdom");
           ("postcode", JString "SW1A 2DX") ]) ].

Definition london_forecast : JsValue :=
  JObject
    [ ("latitude", JNumber 51.5);
      ("current",
       JObject
         [ ("time", JString "2024-05-01T12:00");
           ("temperature_2m", JNumber 15.2);
           ("relative_humidity_2m", JNumber 70);
           ("wind_speed_10m", JNumber 12.3);
           ("weather_code", JNumber 3) ]) ].

(** The same observation in a body that carries nothing else. *)
Definition bare_forecast : JsValue :=
  JObject
    [ ("current",
       JObject
         [ ("temperature_2m", JNumber 15.2);
           ("relative_humidity_2m", JNumber 70);
           ("wind_speed_10m", JNumber 12.3);
           ("weather_code", JNumber 3) ]) ].

Definition is_nominatim (r : Request) : bool :=
  starts_with "https://nominatim.openstreetmap.org/" (url r).

Definition london_world : World :=
  fun r => if is_nominatim r then inr london_address else inr london_forecast.

Definition bare_world : World :=
  fun r => if is_nominatim r then inr london_address else inr bare_forecast.

Definition london : OpenMeteo.Location :=
  {| OpenMeteo.city := "London"; OpenMeteo.country := "United Kingdom" |}.

Definition london_current : OpenMeteo.WeatherResult :=
  {| OpenMeteo.current :=
       {| OpenMeteo.temperature_2m := 15.2;
          OpenMeteo.relative_humidity_2m := 70;
          OpenMeteo.wind_speed_10m := 12.3;
          OpenMeteo.weather_code := 3 |} |}.


(** AccuWeather: a location and three bodies of current conditions, one
    complete, one without humidity, one with a humidity of zero. *)
Definition accu_location : JsValue :=
  JObject
    [ ("Key", JString "328328");
      ("LocalizedName", JString "London");
      ("Country", JObject [("ID", JString "GB"); ("LocalizedName", JString "United Kingdom")]) ].

Definition value_unit (x : number) (u : string) : JsValue :=
  JObject [("Value", JNumber x); ("Unit", JString u)].

Definition accu_conditions (humidity : option number) : JsValue :=
  JArray
    [ JObject
        (([ ("WeatherText", JString "Cloudy");
            ("Temperature",
             JObject [("Metric", value_unit 20.6 "C"); ("Imperial", value_unit 69 "F")]) ]
          ++ match humidity with
             | Some h => [("RelativeHumidity", JNumber h)]
             | None => []
             end)
         ++ [ ("Wind",
               JObject
                 [ ("Speed",
                    JObject
                      [ ("Metric", value_unit 14.8 "km/h");
                        ("Imperial", value_unit 9.2 "mi/h") ]) ]) ])%list ].

Definition is_location_search (r : Request) : bool :=
  starts_with "http://dataservice.accuweather.com/locations/" (url r).

Definition accu_world (humidity : option number) : World :=
  fun r => if is_location_search r then inr accu_location
           else inr (accu_conditions humidity).

Definition accu_env : AccuWeather.Env :=
  {| AccuWeather.ACCUWEATHER_API_KEY := Some "secret" |}.

Definition no_key_env : AccuWeather.Env :=
  {| AccuWeather.ACCUWEATHER_API_KEY := None |}.

Definition accu_london : AccuWeather.Location :=
  {| AccuWeather.locationKey := "328328";
     AccuWeather.city := "London";
     AccuWeather.country := "United Kingdom" |}.

Definition dual (metric : number) (mu : string) (imperial : number) (iu : string)
  : AccuWeather.DualUnit :=
  {| AccuWeather.Metric := {| AccuWeather.Value := metric; AccuWeather.Unit := mu |};
     AccuWeather.Imperial := {| AccuWeather.Value := imperial; AccuWeather.Unit := iu |} |}.

Definition accu_current (humidity : option number) : AccuWeather.CurrentConditions :=
  {| AccuWeather.WeatherText := "Cloudy";
     AccuWeather.Temperature := dual 20.6 "C" 69 "F";
     AccuWeather.RelativeHumidity := humidity;
     AccuWeather.Wind := Some {| AccuWeather.Speed := dual 14.8 "km/h" 9.2 "mi/h" |} |}.

(** The country server: a request from Great Britain, a geocoder that
    finds nothing, and one that finds the country. *)
Definition british_request : CountryWeather.IncomingRequest :=
  {| CountryWeather.request_headers := [("cf-ipcountry", "GB")] |}.

Definition nothing_found : World :=
  fun _ => inr (JObject [("generationtime_ms", JNumber 0.5)]).

End Examples.

(* ====================================================================== *)
(** * Further requests and sample data                                     *)
(* ====================================================================== *)

Module Calls.

(** The request [reverseGeocode] sends. *)
Definition geocode_request (latitude longitude : number) : Request :=
  {| url := "https://nominatim.openstreetmap.org/reverse?lat="
            ++ Number_toString latitude ++ "&lon="
            ++ Number_toString longitude ++ "&format=json";
     query := [];
     headers := [("User-Agent", "Weather MCP Tool/1.0")] |}.


End Calls.

Module MoreExamples.

(** A world in which no request gets through. *)
Definition offline : World := fun _ => inl (JString "fetch failed").

(** A village without a city, in a body Nominatim could send. *)
Definition village_address : JsValue :=
  JObject
    [ ("address",
       JObject
         [ ("city", JString "");
           ("village", JString "Grasmere");
           ("country", JString "United Kingdom") ]) ].

Definition village_world : World :=
  fun r => if Examples.is_nominatim r then inr village_address
           else inr Examples.london_forecast.

(** A geocoder that knows no address at the coordinates. *)
Definition nowhere_world : World :=
  fun r => if Examples.is_nominatim r then inr (JObject [("error", JString "Unable to geocode")])
           else inr Examples.london_forecast.

(** AccuWeather answering the conditions call with an empty array. *)
Definition no_conditions_world : World :=
  fun r => if Examples.is_location_search r then inr Examples.accu_location
           else inr (JArray []).

(** An inbound request whose [cf] coordinates are strings. *)
Definition string_coordinates : AccuWeather.IncomingRequest :=
  {| AccuWeather.cf :=
       Some {| AccuWeather.cf_latitude := JString "51.5";
               AccuWeather.cf_longitude := JString "-0.1" |} |}.

Definition number_coordinates : AccuWeather.IncomingRequest :=
  {| AccuWeather.cf :=
       Some {| AccuWeather.cf_latitude := JNumber 51.5;
               AccuWeather.cf_longitude := JNumber (-0.1) |} |}.

(** The country server: a geocoder that finds the United Kingdom, with a
    forecast, with a body that has no [current], and with no forecast at
    all. *)
Definition is_geocoding (r : Request) : bool :=
  starts_with "https://geocoding-api.open-meteo.com/" (url r).

Definition uk_entry : JsValue :=
  JObject
    [ ("name", JString "United Kingdom");
      ("latitude", JNumber 54.75844);
      ("longitude", JNumber (-2.69531));
      ("country", JString "United Kingdom") ].

Definition uk_results : JsValue :=
  JObject [("results", JArray [uk_entry; JObject [("name", JString "Ukraine")]])].

Definition uk_place : CountryWeather.GeocodingEntry :=
  {| CountryWeather.name := "United Kingdom";
     CountryWeather.latitude := 54.75844;
     CountryWeather.longitude := -2.69531;
     CountryWeather.country := "United Kingdom" |}.

Definition uk_current : CountryWeather.Current :=
  {| CountryWeather.temperature_2m := 15.2;
     CountryWeather.relative_humidity_2m := 70;
     CountryWeather.wind_speed_10m := 12.3;
     CountryWeather.weather_code := 3 |}.

Definition uk_world : World :=
  fun r => if is_geocoding r then inr uk_results else inr Examples.london_forecast.

Definition uk_no_current_world : World :=
  fun r => if is_geocoding r then inr uk_results
           else inr (JObject [("error", JBool true)]).

Definition uk_no_forecast_world : World :=
  fun r => if is_geocoding r then inr uk_results else inl (JString "fetch failed").

End MoreExamples.

(* ====================================================================== *)
(** * Facts about strings                                                  *)
(* ====================================================================== *)

Module StringFacts.

Lemma append_nil_r (s : string) : s ++ "" = s.
Proof. induction s as [|c s IH]; simpl; [reflexivity | now rewrite IH]. Qed.

Lemma append_assoc (a b c : string) : (a ++ b) ++ c = a ++ (b ++ c).
Proof. induction a as [|x a IH]; simpl; [reflexivity | now rewrite IH]. Qed.

Lemma string_rev_app (a b : string) :
  string_rev (a ++ b) = string_rev b ++ string_rev a.
Proof.
  induction a as [|x a IH]; simpl.
  - now rewrite append_nil_r.
  - now rewrite IH, append_assoc.
Qed.

Lemma string_rev_involutive (s : string) : string_rev (string_rev s) = s.
Proof.
  induction s as [|c s IH]; simpl; [reflexivity|].
  rewrite string_rev_app. simpl. now rewrite IH.
Qed.

Lemma length_append (a b : string) :
  String.length (a ++ b) = (String.length a + String.length b)%nat.
Proof. induction a as [|x a IH]; simpl; [reflexivity | now rewrite IH]. Qed.

(** *** Lines *)

Lemma single_line_app (a b : string) :
  single_line (a ++ b) = single_line a && single_line b.
Proof.
  induction a as [|x a IH]; simpl; [reflexivity|].
  now rewrite IH, andb_assoc.
Qed.

Lemma single_line_rev (s : string) : single_line (string_rev s) = single_line s.
Proof.
  induction s as [|c s IH]; simpl; [reflexivity|].
  rewrite single_line_app, IH. simpl.
  rewrite andb_true_r. apply andb_comm.
Qed.

Lemma lines_single (a : string) : single_line a = true -> lines a = [a].
Proof.
  induction a as [|c a IH]; simpl; [reflexivity|].
  intros H. apply andb_prop in H. destruct H as [Hc Ha].
  destruct (Ascii.eqb c LF); [discriminate|].
  now rewrite (IH Ha).
Qed.

Lemma lines_app (a b : string) :
  single_line a = true -> lines (a ++ String LF b) = a :: lines b.
Proof.
  induction a as [|c a IH]; simpl.
  - reflexivity.
  - intros H. apply andb_prop in H. destruct H as [Hc Ha].
    destruct (Ascii.eqb c LF); [discriminate|].
    now rewrite (IH Ha).
Qed.

(** *** White space *)

Ltac not_plain c H :=
  repeat match goal with
    | |- context [N.eqb (code c) ?k] =>
        replace (N.eqb (code c) k) with false by (symmetry; apply N.eqb_neq; lia)
    | |- context [N.leb ?k (code c)] =>
        replace (N.leb k (code c)) with false by (symmetry; apply N.leb_gt; lia)
    end;
  repeat match goal with
    | |- context [N.eqb ?a ?b] => destruct (N.eqb a b)
    | |- context [N.leb ?a ?b] => destruct (N.leb a b)
    end;
  reflexivity.

Lemma plain_low (c : ascii) : plain c = true -> (code c < 128)%N /\ ws1 c = false.
Proof.
  unfold plain. intros H. apply andb_prop in H. destruct H as [H1 H2].
  apply N.ltb_lt in H1. apply negb_true_iff in H2. now split.
Qed.

Lemma ws2_plain_l (c d : ascii) : plain c = true -> ws2 c d = false.
Proof. intros H. apply plain_low in H. destruct H as [H _]. unfold ws2. not_plain c H. Qed.

Lemma ws2_plain_r (c d : ascii) : plain d = true -> ws2 c d = false.
Proof. intros H. apply plain_low in H. destruct H as [H _]. unfold ws2. not_plain d H. Qed.

Lemma ws3_plain_1 (c d e : ascii) : plain c = true -> ws3 c d e = false.
Proof.
  intros H. apply plain_low in H. destruct H as [H _]. unfold ws3. cbv zeta.
  not_plain c H.
Qed.

Lemma ws3_plain_2 (c d e : ascii) : plain d = true -> ws3 c d e = false.
Proof.
  intros H. apply plain_low in H. destruct H as [H _]. unfold ws3. cbv zeta.
  not_plain d H.
Qed.

Lemma ws3_plain_3 (c d e : ascii) : plain e = true -> ws3 c d e = false.
Proof.
  intros H. apply plain_low in H. destruct H as [H _]. unfold ws3. cbv zeta.
  not_plain e H.
Qed.

Lemma trimStart_plain (c : ascii) (s : string) :
  plain c = true -> trimStart (String c s) = String c s.
Proof.
  intros H. simpl. rewrite (proj2 (plain_low c H)).
  destruct s as [|d s]; [reflexivity|]. rewrite (ws2_plain_l c d H).
  destruct s as [|e s]; [reflexivity|]. now rewrite (ws3_plain_1 c d e H).
Qed.

Lemma trimStartRev_plain (c : ascii) (s : string) :
  plain c = true -> trimStartRev (String c s) = String c s.
Proof.
  intros H. simpl. rewrite (proj2 (plain_low c H)).
  destruct s as [|d s]; [reflexivity|]. rewrite (ws2_plain_r d c H).
  destruct s as [|e s]; [reflexivity|]. now rewrite (ws3_plain_3 e d c H).
Qed.

(** A scan from the end does not get past a plain character. *)
Lemma trimStartRev_app_plain (n : nat) :
  forall (a : string) (c : ascii) (b : string),
    (String.length a <= n)%nat ->
    plain c = true ->
    trimStartRev (a ++ String c b) = trimStartRev a ++ String c b.
Proof.
  induction n as [n IH] using lt_wf_ind.
  intros a c b Hlen Hc.
  destruct a as [|x a].
  { cbn [append]. rewrite trimStartRev_plain by exact Hc. reflexivity. }
  cbn [append trimStartRev]. simpl in Hlen.
  destruct (ws1 x) eqn:Hx.
  { apply (IH (String.length a)); [lia | lia | exact Hc]. }
  destruct a as [|y a]; cbn [append].
  { rewrite (ws2_plain_l c x Hc).
    destruct b as [|z b]; [reflexivity|]. now rewrite (ws3_plain_2 z c x Hc). }
  simpl in Hlen.
  destruct (ws2 y x) eqn:Hyx.
  { apply (IH (String.length a)); [lia | lia | exact Hc]. }
  destruct a as [|z a]; cbn [append].
  { now rewrite (ws3_plain_1 c y x Hc). }
  simpl in Hlen.
  destruct (ws3 z y x) eqn:Hzyx; [|reflexivity].
  apply (IH (String.length a)); [lia | lia | exact Hc].
Qed.

Lemma trimEnd_after_plain (a : string) (c : ascii) (b : string) :
  plain c = true -> trimEnd (a ++ String c b) = a ++ String c (trimEnd b).
Proof.
  intros Hc. unfold trimEnd.
  rewrite string_rev_app. cbn [string_rev].
  rewrite append_assoc. cbn [append].
  rewrite (trimStartRev_app_plain (String.length (string_rev b)) _ c _ (le_n _) Hc).
  rewrite string_rev_app. cbn [string_rev].
  rewrite string_rev_involutive, append_assoc. reflexivity.
Qed.

(** A scan drops a prefix. *)
Lemma trimStartRev_suffix (n : nat) :
  forall s : string, (String.length s <= n)%nat ->
    exists p : string, s = p ++ trimStartRev s.
Proof.
  induction n as [n IH] using lt_wf_ind.
  intros s Hlen.
  destruct s as [|x s]; [now exists ""|].
  cbn [trimStartRev]. simpl in Hlen.
  destruct (ws1 x).
  { destruct (IH (String.length s) ltac:(lia) s (le_n _)) as [p Hp].
    exists (String x p). cbn [append]. now rewrite <- Hp. }
  destruct s as [|y s]; [now exists ""|]. simpl in Hlen.
  destruct (ws2 y x).
  { destruct (IH (String.length s) ltac:(lia) s (le_n _)) as [p Hp].
    exists (String x (String y p)). cbn [append]. now rewrite <- Hp. }
  destruct s as [|z s]; [now exists ""|]. simpl in Hlen.
  destruct (ws3 z y x); [|now exists ""].
  destruct (IH (String.length s) ltac:(lia) s (le_n _)) as [p Hp].
  exists (String x (String y (String z p))). cbn [append]. now rewrite <- Hp.
Qed.

Lemma single_line_trimEnd (s : string) :
  single_line s = true -> single_line (trimEnd s) = true.
Proof.
  intros H. unfold trimEnd. rewrite single_line_rev.
  destruct (trimStartRev_suffix _ (string_rev s) (le_n _)) as [p Hp].
  rewrite <- single_line_rev, Hp, single_line_app in H.
  apply andb_prop in H. apply H.
Qed.

(** The end of the handlers' template literals, a line feed and the
    indentation of the closing backquote, goes. *)
Lemma trimEnd_closing (s : string) :
  trimEnd (s ++ Shared.nl ++ Shared.closing_indent) = trimEnd s.
Proof. unfold trimEnd. rewrite string_rev_app. reflexivity. Qed.

End StringFacts.

(* ====================================================================== *)
(** * Facts about numbers and their printing                               *)
(* ====================================================================== *)

Module NumberFacts.
Import StringFacts.

Lemma all_digits_uint (d : Decimal.uint) :
  all_digits (NilEmpty.string_of_uint d) = true.
Proof. induction d; simpl; auto. Qed.

Lemma all_digits_digits_of (z : Z) : all_digits (digits_of z) = true.
Proof.
  unfold digits_of, string_of_N, NilZero.string_of_uint.
  destruct (N.to_uint (Z.to_N z)); try apply all_digits_uint; reflexivity.
Qed.

Lemma all_digits_app (a b : string) :
  all_digits (a ++ b) = all_digits a && all_digits b.
Proof.
  induction a as [|x a IH]; simpl; [reflexivity|]. now rewrite IH, andb_assoc.
Qed.

Lemma is_digit_cases (c : ascii) :
  is_digit c = true ->
  Ascii.eqb c LF = false /\ Ascii.eqb c "." = false
  /\ Ascii.eqb c "194" = false /\ Ascii.eqb c "-" = false.
Proof.
  unfold is_digit. intros H. apply andb_prop in H. destruct H as [H1 H2].
  apply N.leb_le in H1. apply N.leb_le in H2.
  repeat split; apply Ascii.eqb_neq; intros ->;
    unfold code, LF in H1, H2; simpl N_of_ascii in H1, H2; lia.
Qed.

Lemma all_digits_single_line (s : string) :
  all_digits s = true -> single_line s = true.
Proof.
  induction s as [|c s IH]; simpl; [reflexivity|].
  intros H. apply andb_prop in H. destruct H as [Hc Hs].
  destruct (is_digit_cases c Hc) as [-> _]. simpl. auto.
Qed.

Lemma single_line_digits_of (z : Z) : single_line (digits_of z) = true.
Proof. apply all_digits_single_line, all_digits_digits_of. Qed.

Lemma single_line_zeros (n : nat) : single_line (zeros n) = true.
Proof. induction n; simpl; auto. Qed.

Lemma single_line_substring (s : string) :
  single_line s = true -> forall n m, single_line (substring n m s) = true.
Proof.
  induction s as [|c s IH]; intros H n m.
  - destruct n, m; reflexivity.
  - simpl in H. apply andb_prop in H. destruct H as [Hc Hs].
    destruct n; simpl.
    + destruct m; simpl; [reflexivity|]. rewrite Hc. simpl. apply IH, Hs.
    + apply IH, Hs.
Qed.

Lemma single_line_drop_zeros (s : string) :
  single_line s = true -> single_line (drop_zeros s) = true.
Proof.
  induction s as [|c s IH]; simpl; [reflexivity|].
  intros H. destruct (Ascii.eqb c "0"); [|exact H].
  apply andb_prop in H. apply IH, H.
Qed.

Lemma single_line_significand (x : Q) : single_line (fst (significand x)) = true.
Proof.
  unfold significand.
  destruct (nearest (x * pow10 (17 - magnitude x)) =? 10 ^ 17)%Z; cbn [fst];
    unfold strip_trailing_zeros;
    rewrite single_line_rev; apply single_line_drop_zeros;
    rewrite single_line_rev; apply single_line_digits_of.
Qed.

Ltac single_line_pieces :=
  repeat (rewrite single_line_app; apply andb_true_intro; split);
  try reflexivity;
  auto using single_line_zeros, single_line_digits_of, single_line_substring.

Lemma single_line_scientific (s e : string) :
  single_line s = true -> single_line e = true ->
  single_line
    match s with
    | String d EmptyString => String d e
    | String d rest => String d ("." ++ rest ++ e)
    | EmptyString => e
    end = true.
Proof.
  intros Hs He. destruct s as [|d r]; [exact He|].
  assert (Hd : single_line (String d "") = true /\ single_line r = true).
  { simpl in Hs |- *. apply andb_prop in Hs. destruct Hs as [-> ->]. now split. }
  destruct Hd as [Hd Hr].
  destruct r as [|d' rest].
  - change (single_line (String d "" ++ e) = true). single_line_pieces.
  - change (single_line (String d "" ++ "." ++ String d' rest ++ e) = true).
    single_line_pieces.
Qed.

Lemma single_line_Number_toString_positive (x : Q) :
  single_line (Number_toString_positive x) = true.
Proof.
  unfold Number_toString_positive.
  pose proof (single_line_significand x) as Hs.
  destruct (significand x) as [s n]. cbn [fst] in Hs. cbv zeta.
  destruct ((Z.of_nat (String.length s) <=? n) && (n <=? 21))%Z;
    [single_line_pieces|].
  destruct ((0 <? n) && (n <=? 21))%Z; [single_line_pieces|].
  destruct ((-6 <? n) && (n <=? 0))%Z; [single_line_pieces|].
  apply single_line_scientific; [exact Hs|].
  destruct (n - 1 <? 0)%Z; single_line_pieces.
Qed.

Lemma single_line_Number_toString (x : number) :
  single_line (Number_toString x) = true.
Proof.
  unfold Number_toString.
  destruct (Qeq_bool x 0); [reflexivity|].
  destruct (Qle_bool 0 x); [apply single_line_Number_toString_positive|].
  simpl. apply single_line_Number_toString_positive.
Qed.

Lemma single_line_toFixed1 (x : number) : single_line (toFixed1 x) = true.
Proof.
  unfold toFixed1.
  destruct (Qle_bool 0 x), (Qle_bool (pow10 21) (Qabs x)); cbv zeta;
    repeat (rewrite single_line_app; apply andb_true_intro; split);
    auto using single_line_Number_toString, single_line_digits_of.
Qed.

(** *** Reading digits back *)









(** *** Rounding to tenths *)






End NumberFacts.

(* ====================================================================== *)
(** * The shape of the handlers' texts                                     *)
(* ====================================================================== *)

Module TextFacts.
Import StringFacts NumberFacts Shared.

Lemma trimStart_template (s : string) :
  trimStart (nl ++ "Weather in " ++ s) = "Weather in " ++ s.
Proof. reflexivity. Qed.

(** The last line of a template keeps its label; [trim] takes the white
    space that ends it, and the closing line feed and indentation. *)
Lemma trimEnd_template (before conditions : string) :
  trimEnd (before ++ nl ++ ("• Conditions: " ++ conditions) ++ nl ++ closing_indent)
  = before ++ nl ++ trimEnd ("• Conditions: " ++ conditions).
Proof.
  transitivity
    (trimEnd ((before ++ nl ++ "• Conditions")
              ++ String ":" ((" " ++ conditions) ++ nl ++ closing_indent))).
  { f_equal. rewrite !append_assoc. reflexivity. }
  rewrite trimEnd_after_plain by reflexivity.
  rewrite trimEnd_closing.
  change ("• Conditions: " ++ conditions)
    with ("• Conditions" ++ String ":" (" " ++ conditions)).
  rewrite trimEnd_after_plain by reflexivity.
  rewrite !append_assoc. reflexivity.
Qed.

Lemma lines5 (a b c d e : string) :
  single_line a = true -> single_line b = true -> single_line c = true ->
  single_line d = true -> single_line e = true ->
  lines (a ++ nl ++ b ++ nl ++ c ++ nl ++ d ++ nl ++ e) = [a; b; c; d; e].
Proof.
  intros Ha Hb Hc Hd He. unfold nl. cbn [append].
  rewrite !lines_app by assumption. now rewrite lines_single.
Qed.

(** The five lines of a text written by the templates of src/index.ts
    and of the AccuWeather server. *)
Lemma template_lines (header temperature humidity wind conditions : string) :
  single_line header = true ->
  single_line temperature = true ->
  single_line humidity = true ->
  single_line wind = true ->
  single_line conditions = true ->
  lines
    (trim
       (nl
        ++ ("Weather in " ++ header) ++ nl
        ++ ("• Temperature: " ++ temperature) ++ nl
        ++ humidity ++ nl
        ++ wind ++ nl
        ++ ("• Conditions: " ++ conditions) ++ nl
        ++ closing_indent))
  = [ "Weather in " ++ header;
      "• Temperature: " ++ temperature;
      humidity;
      wind;
      trimEnd ("• Conditions: " ++ conditions) ].
Proof.
  intros Hh Ht Hu Hw Hc. unfold trim.
  rewrite (append_assoc "Weather in " header).
  rewrite trimStart_template.
  rewrite <- (append_assoc "Weather in " header).
  transitivity
    (lines
       (trimEnd
          ((("Weather in " ++ header) ++ nl
            ++ ("• Temperature: " ++ temperature) ++ nl
            ++ humidity ++ nl ++ wind)
           ++ nl ++ ("• Conditions: " ++ conditions) ++ nl ++ closing_indent))).
  { do 2 f_equal. rewrite !append_assoc. reflexivity. }
  rewrite trimEnd_template, !append_assoc.
  rewrite <- (append_assoc "Weather in " header).
  rewrite <- (append_assoc "• Temperature: " temperature).
  apply lines5; try assumption.
  apply single_line_trimEnd. exact Hc.
Qed.

Lemma conditions_line (conditions : string) :
  trimEnd ("• Conditions: " ++ conditions)
  = "• Conditions" ++ String ":" (trimEnd (" " ++ conditions)).
Proof.
  change ("• Conditions: " ++ conditions)
    with ("• Conditions" ++ String ":" (" " ++ conditions)).
  now rewrite trimEnd_after_plain.
Qed.





End TextFacts.

(* ====================================================================== *)
(** * Condition codes and error messages                                   *)
(* ====================================================================== *)

Module SharedFacts.
Import Shared.

Lemma Qeq_bool_inject_Z (a b : Z) :
  Qeq_bool (inject_Z a) (inject_Z b) = (a =? b)%Z.
Proof.
  destruct (Z.eqb_spec a b) as [->|H].
  - apply Qeq_bool_refl.
  - destruct (Qeq_bool (inject_Z a) (inject_Z b)) eqn:E; [|reflexivity].
    apply Qeq_bool_eq in E. apply (proj1 (inject_Z_injective a b)) in E. contradiction.
Qed.

(** A number that is no key of the table reads [undefined]. *)
Lemma at_number_absent (table : list (Z * string)) (code : number) :
  (forall k : Z, In k (map fst table) -> ~ code == inject_Z k) ->
  at_number table code = None.
Proof.
  induction table as [|[k v] rest IH]; intros H; [reflexivity|].
  cbn [at_number].
  destruct (Qeq_bool code (inject_Z k)) eqn:E.
  - apply Qeq_bool_eq in E. exfalso. apply (H k); [now left | exact E].
  - apply IH. intros k' Hk'. apply H. now right.
Qed.

(** Numbers that are no integer read "Unknown" as well. *)
Lemma getWeatherDescription_unknown (code : number) :
  (forall k : Z, In k (map fst weatherCodes) -> ~ code == inject_Z k) ->
  getWeatherDescription code = "Unknown".
Proof.
  intros H. unfold getWeatherDescription. now rewrite at_number_absent.
Qed.

End SharedFacts.

(** C3. [getWeatherDescription] is a total function of the condition
    code. The keys of its table are the twenty-eight codes listed; on each
    of them it returns the string the table holds for it, and on every
    other integer it returns "Unknown". *)
Theorem getWeatherDescription_table :
  map fst Shared.weatherCodes
  = [0; 1; 2; 3; 45; 48; 51; 53; 55; 56; 57; 61; 63; 65; 66; 67; 71; 73; 75;
     77; 80; 81; 82; 85; 86; 95; 96; 99]%Z
  /\ (forall (k : Z) (description : string),
        In (k, description) Shared.weatherCodes ->
        Shared.getWeatherDescription (inject_Z k) = description)
  /\ (forall z : Z,
        ~ In z (map fst Shared.weatherCodes) ->
        Shared.getWeatherDescription (inject_Z z) = "Unknown").
Proof.
  split; [reflexivity|]. split.
  - intros k description H. unfold Shared.weatherCodes in H. cbn [In] in H.
    repeat (destruct H as [H | H]; [injection H as <- <-; reflexivity|]).
    contradiction.
  - intros z Hz. apply SharedFacts.getWeatherDescription_unknown.
    intros k Hk E. apply (proj1 (inject_Z_injective z k)) in E. now subst.
Qed.

Lemma getWeatherDescription_table_witness :
  Shared.getWeatherDescription (inject_Z 45) = "Foggy"
  /\ Shared.getWeatherDescription (inject_Z 4) = "Unknown".
Proof.
  split.
  - apply (proj1 (proj2 getWeatherDescription_table)).
    unfold Shared.weatherCodes. cbn [In]. tauto.
  - apply (proj2 (proj2 getWeatherDescription_table)).
    unfold Shared.weatherCodes. cbn [In map fst].
    intros H. repeat (destruct H as [H | H]; [discriminate H|]). exact H.
Defined.

(** C6. [getErrorMessage] returns a string failure as it is and the
    [message] of an object that carries a string [message], both without
    logging; in every other case it logs the failure through
    [console.error] and returns "Unknown Error". *)
Theorem getErrorMessage_cases (error : JsValue) (w : World) :
  (forall s : string, error = JString s ->
     Shared.getErrorMessage error w = ([], inr s))
  /\ (forall (props : list (string * JsValue)) (message : string),
        error = JObject props ->
        lookup "message" props = Some (JString message) ->
        Shared.getErrorMessage error w = ([], inr message))
  /\ ((forall s : string, error <> JString s) ->
      (forall (props : list (string * JsValue)) (message : string),
         error = JObject props -> lookup "message" props <> Some (JString message)) ->
      Shared.getErrorMessage error w
      = ([ConsoleError [JString "Unable to get error message for error"; error]],
         inr "Unknown Error")).
Proof.
  split; [|split].
  - intros s ->. reflexivity.
  - intros props message -> H. unfold Shared.getErrorMessage, has_property, property.
    cbn [typeof truthy props_of]. rewrite H. reflexivity.
  - intros Hs Ho. unfold Shared.getErrorMessage, has_property, property.
    destruct error as [| |b|x|z|s|d|props|items|props]; try reflexivity.
    + now destruct b.
    + cbn [typeof truthy]. now destruct (Qeq_bool x 0).
    + cbn [typeof truthy]. now destruct (z =? 0)%Z.
    + now destruct (Hs s).
    + cbn [typeof truthy props_of].
      destruct (lookup "message" props) as [[| |b|x|z|m|d|ps|items|ps]|] eqn:E;
        try reflexivity.
      now destruct (Ho props m eq_refl).
Qed.

Lemma getErrorMessage_cases_witness :
  Shared.getErrorMessage (JString "boom") (fun _ => inr JNull) = ([], inr "boom")
  /\ Shared.getErrorMessage
       (JObject [("name", JString "Error"); ("message", JString "no route")])
       (fun _ => inr JNull)
     = ([], inr "no route")
  /\ Shared.getErrorMessage (JNumber 42) (fun _ => inr JNull)
     = ([ConsoleError [JString "Unable to get error message for error"; JNumber 42]],
        inr "Unknown Error").
Proof.
  split; [|split].
  - apply (proj1 (getErrorMessage_cases (JString "boom") _) "boom" eq_refl).
  - apply (proj1 (proj2 (getErrorMessage_cases
                           (JObject [("name", JString "Error");
                                     ("message", JString "no route")]) _))
             _ "no route" eq_refl eq_refl).
  - apply (proj2 (proj2 (getErrorMessage_cases (JNumber 42) _))).
    + intros s H. discriminate H.
    + intros props message H. discriminate H.
Defined.

(* ====================================================================== *)
(** * Validation                                                           *)
(* ====================================================================== *)

Module ZodFacts.

Lemma validate_number_inr (p : list string) (v v' : JsValue) :
  validate ZNumber p v = inr v' -> exists x : number, v = JNumber x /\ v' = JNumber x.
Proof.
  destruct v; cbn [validate]; intros H; try discriminate H.
  injection H as <-. eauto.
Qed.

Lemma validate_object_inr (shape : list (string * ZodType)) (p : list string)
    (v v' : JsValue) :
  validate (ZObject shape) p v = inr v' ->
  exists props : list (string * JsValue), v = JObject props.
Proof. destruct v; cbn [validate]; intros H; try discriminate H. eauto. Qed.

Lemma validate_object_nil (p : list string) (props : list (string * JsValue)) :
  validate (ZObject []) p (JObject props) = inr (JObject []).
Proof. reflexivity. Qed.

(** An object validator succeeds when each key of its shape does, and
    its result holds the validated values of the keys, in the order of
    the shape. *)
Lemma validate_object_cons_inr (k : string) (tk : ZodType)
    (rest : list (string * ZodType)) (p : list string)
    (props : list (string * JsValue)) (v : JsValue) :
  validate (ZObject ((k, tk) :: rest)) p (JObject props) = inr v ->
  exists (x : JsValue) (out : list (string * JsValue)),
    validate tk (p ++ [k])%list (property k (JObject props)) = inr x
    /\ validate (ZObject rest) p (JObject props) = inr (JObject out)
    /\ v = JObject
             match x with
             | JUndefined => if has_property k (JObject props) then (k, x) :: out else out
             | _ => (k, x) :: out
             end.
Proof.
  cbn [validate].
  destruct (validate tk (p ++ [k])%list (property k (JObject props))) as [i1|x];
    match goal with
    | |- context [match ?f rest with _ => _ end] => destruct (f rest) as [i2|out]
    end; intros H; try discriminate H.
  exists x, out. split; [reflexivity|]. split; [reflexivity|].
  destruct x; try (injection H as <-; reflexivity).
  destruct (has_property k (JObject props)); injection H as <-; reflexivity.
Qed.

(** What the Open-Meteo schema lets through is an object whose [current]
    is an object of four numbers. *)
Lemma weatherResultSchema_inr (json weatherData : JsValue) :
  validate OpenMeteo.weatherResultSchema [] json = inr weatherData ->
  exists t h ws c : number,
    weatherData
    = JObject
        [ ("current",
           JObject
             [ ("temperature_2m", JNumber t);
               ("relative_humidity_2m", JNumber h);
               ("wind_speed_10m", JNumber ws);
               ("weather_code", JNumber c) ]) ].
Proof.
  unfold OpenMeteo.weatherResultSchema. intros H.
  destruct (validate_object_inr _ _ _ _ H) as [props ->].
  apply validate_object_cons_inr in H.
  destruct H as (cur & out & Hcur & Hout & ->).
  rewrite validate_object_nil in Hout. injection Hout as <-.
  destruct (validate_object_inr _ _ _ _ Hcur) as [cprops E].
  rewrite E in Hcur.
  apply validate_object_cons_inr in Hcur.
  destruct Hcur as (t & o1 & Ht & H1 & ->).
  apply validate_object_cons_inr in H1.
  destruct H1 as (h & o2 & Hh & H2 & E1). injection E1 as ->.
  apply validate_object_cons_inr in H2.
  destruct H2 as (ws & o3 & Hws & H3 & E2). injection E2 as ->.
  apply validate_object_cons_inr in H3.
  destruct H3 as (c & o4 & Hc & H4 & E3). injection E3 as ->.
  rewrite validate_object_nil in H4. injection H4 as <-.
  apply validate_number_inr in Ht, Hh, Hws, Hc.
  destruct Ht as (t' & _ & ->), Hh as (h' & _ & ->),
           Hws as (ws' & _ & ->), Hc as (c' & _ & ->).
  now exists t', h', ws', c'.
Qed.

End ZodFacts.

(* ====================================================================== *)
(** * Runs of the handlers                                                 *)
(* ====================================================================== *)

Module HandlerFacts.

(** src/index.ts: the run in which both responses validate. *)
Lemma OpenMeteo_success (latitude longitude : number) (unit : Js.Unit) (w : World)
    (t : list Effect) (loc : OpenMeteo.Location) (weatherJson weatherData : JsValue) :
  OpenMeteo.reverseGeocode latitude longitude w = (t, inr loc) ->
  w (OpenMeteo.forecast_request latitude longitude) = inr weatherJson ->
  validate OpenMeteo.weatherResultSchema [] weatherJson = inr weatherData ->
  truthy (opt_property "current" weatherData) = true
  /\ exists data : OpenMeteo.WeatherResult,
       OpenMeteo.as_WeatherResult weatherData = Some data
       /\ OpenMeteo.getWeather latitude longitude unit w
          = ((t ++ [Fetch (OpenMeteo.forecast_request latitude longitude)])%list,
             inr {| isError := false; text := OpenMeteo.weatherText loc data unit |}).
Proof.
  intros Hgeo Hfetch Hvalid.
  destruct (ZodFacts.weatherResultSchema_inr _ _ Hvalid) as (t2m & h & ws & c & E).
  subst weatherData. split; [reflexivity|].
  eexists. split; [reflexivity|].
  unfold OpenMeteo.getWeather, try_catch, bind.
  rewrite Hgeo. unfold fetch_json. rewrite Hfetch.
  unfold parse. rewrite Hvalid. reflexivity.
Qed.

(** The AccuWeather server: the three guards, in their order. *)
Lemma AccuWeather_latitude (env : AccuWeather.Env)
    (store : option AccuWeather.IncomingRequest)
    (latitude longitude : option number) (unit : Js.Unit) (w : World) :
  typeof (AccuWeather.resolve latitude store AccuWeather.cf_latitude) <> "number" ->
  AccuWeather.getWeather env store latitude longitude unit w
  = ([], inr {| isError := true; text := AccuWeather.latitude_required |}).
Proof.
  intros H. unfold AccuWeather.getWeather, try_catch, bind. cbv zeta.
  destruct (String.eqb_spec
              (typeof (AccuWeather.resolve latitude store AccuWeather.cf_latitude))
              "number") as [E|_]; [contradiction|].
  reflexivity.
Qed.

Lemma AccuWeather_longitude (env : AccuWeather.Env)
    (store : option AccuWeather.IncomingRequest)
    (latitude longitude : option number) (unit : Js.Unit) (w : World) :
  typeof (AccuWeather.resolve latitude store AccuWeather.cf_latitude) = "number" ->
  typeof (AccuWeather.resolve longitude store AccuWeather.cf_longitude) <> "number" ->
  AccuWeather.getWeather env store latitude longitude unit w
  = ([], inr {| isError := true; text := AccuWeather.longitude_required |}).
Proof.
  intros H1 H2. unfold AccuWeather.getWeather, try_catch, bind. cbv zeta.
  rewrite H1.
  destruct (String.eqb_spec
              (typeof (AccuWeather.resolve longitude store AccuWeather.cf_longitude))
              "number") as [E|_]; [contradiction|].
  reflexivity.
Qed.

Lemma AccuWeather_api_key (env : AccuWeather.Env)
    (store : option AccuWeather.IncomingRequest)
    (latitude longitude : option number) (unit : Js.Unit) (w : World) :
  typeof (AccuWeather.resolve latitude store AccuWeather.cf_latitude) = "number" ->
  typeof (AccuWeather.resolve longitude store AccuWeather.cf_longitude) = "number" ->
  truthy (AccuWeather.of_optional_string (AccuWeather.ACCUWEATHER_API_KEY env)) = false ->
  AccuWeather.getWeather env store latitude longitude unit w
  = ([], inr {| isError := true; text := AccuWeather.api_key_required |}).
Proof.
  intros H1 H2 H3. unfold AccuWeather.getWeather, try_catch, bind. cbv zeta.
  rewrite H1, H2, H3. reflexivity.
Qed.

(** The AccuWeather server: the run in which the guards pass and both
    calls return validated data. *)
Lemma AccuWeather_success (env : AccuWeather.Env)
    (store : option AccuWeather.IncomingRequest)
    (latitude longitude : option number) (unit : Js.Unit) (w : World)
    (lat long : number) (apiKey : string) (t1 t2 : list Effect)
    (loc : AccuWeather.Location) (weatherData : AccuWeather.CurrentConditions) :
  AccuWeather.resolve latitude store AccuWeather.cf_latitude = JNumber lat ->
  AccuWeather.resolve longitude store AccuWeather.cf_longitude = JNumber long ->
  AccuWeather.ACCUWEATHER_API_KEY env = Some apiKey ->
  apiKey <> "" ->
  AccuWeather.getLocationKey lat long apiKey w = (t1, inr loc) ->
  AccuWeather.getCurrentConditions (AccuWeather.locationKey loc) apiKey w
  = (t2, inr weatherData) ->
  AccuWeather.getWeather env store latitude longitude unit w
  = ((t1 ++ t2)%list,
     inr {| isError := false; text := AccuWeather.weatherText loc weatherData unit |}).
Proof.
  intros Hlat Hlong Hkey Hne Hloc Hcond.
  unfold AccuWeather.getWeather, try_catch, bind. cbv zeta.
  rewrite Hlat, Hlong, Hkey.
  assert (E : truthy (AccuWeather.of_optional_string (Some apiKey)) = true).
  { cbn. apply negb_true_iff, String.eqb_neq, Hne. }
  rewrite E. cbn [typeof String.eqb Ascii.eqb Bool.eqb invariant ret typed as_number
                  as_string AccuWeather.of_optional_string].
  rewrite Hloc, Hcond. now rewrite app_nil_r.
Qed.

End HandlerFacts.

(* ====================================================================== *)
(** * The lines of the two formatted texts                                 *)
(* ====================================================================== *)

Module ServerTexts.
Import StringFacts NumberFacts TextFacts Shared.



Lemma AccuWeather_lines (loc : AccuWeather.Location)
    (weatherData : AccuWeather.CurrentConditions) (unit : Js.Unit) :
  single_line (AccuWeather.city loc) = true ->
  single_line (AccuWeather.country loc) = true ->
  (forall w : AccuWeather.WindData,
     AccuWeather.Wind weatherData = Some w ->
     single_line (AccuWeather.Unit (AccuWeather.Metric (AccuWeather.Speed w))) = true) ->
  single_line (AccuWeather.WeatherText weatherData) = true ->
  lines (AccuWeather.weatherText loc weatherData unit)
  = [ "Weather in " ++ AccuWeather.city loc ++ ", " ++ AccuWeather.country loc ++ ":";
      "• Temperature: "
      ++ toFixed1
           match unit with
           | fahrenheit =>
               AccuWeather.Value (AccuWeather.Imperial (AccuWeather.Temperature weatherData))
           | celsius =>
               AccuWeather.Value (AccuWeather.Metric (AccuWeather.Temperature weatherData))
           end
      ++ "°" ++ match unit with fahrenheit => "F" | celsius => "C" end;
      match AccuWeather.RelativeHumidity weatherData with
      | Some h =>
          if truthy (JNumber h) then "• Humidity: " ++ Number_toString h ++ "%" else ""
      | None => ""
      end;
      match AccuWeather.Wind weatherData with
      | Some w =>
          "• Wind Speed: "
          ++ Number_toString (AccuWeather.Value (AccuWeather.Metric (AccuWeather.Speed w)))
          ++ " " ++ AccuWeather.Unit (AccuWeather.Metric (AccuWeather.Speed w))
      | None => ""
      end;
      "• Conditions" ++ String ":" (trimEnd (" " ++ AccuWeather.WeatherText weatherData)) ].
Proof.
  intros Hcity Hcountry Hunit Htext. unfold AccuWeather.weatherText. cbv zeta.
  rewrite template_lines.
  - now rewrite conditions_line.
  - rewrite !single_line_app, Hcity, Hcountry. reflexivity.
  - rewrite !single_line_app, single_line_toFixed1. now destruct unit.
  - destruct (AccuWeather.RelativeHumidity weatherData) as [h|]; [|reflexivity].
    destruct (truthy (JNumber h)); [|reflexivity].
    change (single_line (Number_toString h ++ "%") = true).
    now rewrite single_line_app, single_line_Number_toString.
  - destruct (AccuWeather.Wind weatherData) as [w|] eqn:E; [|reflexivity].
    change (single_line
              (Number_toString
                 (AccuWeather.Value (AccuWeather.Metric (AccuWeather.Speed w)))
               ++ " " ++ AccuWeather.Unit (AccuWeather.Metric (AccuWeather.Speed w)))
            = true).
    rewrite !single_line_app, single_line_Number_toString, (Hunit w eq_refl).
    reflexivity.
  - exact Htext.
Qed.

End ServerTexts.

(* ====================================================================== *)
(** * Sample runs                                                          *)
(* ====================================================================== *)

Module Runs.
Import Examples.

(** The example of the specification. *)
Example london_in_celsius :
  exists (t : list Effect) (r : ToolResult),
    OpenMeteo.getWeather 51.5074 (-0.1278) celsius london_world = (t, inr r)
    /\ map url (http_calls t)
       = [ "https://nominatim.openstreetmap.org/reverse?lat=51.5074&lon=-0.1278&format=json";
           "https://api.open-meteo.com/v1/forecast?latitude=51.5074&longitude=-0.1278&current=temperature_2m,relative_humidity_2m,wind_speed_10m,weather_code" ]
    /\ isError r = false
    /\ lines (text r)
       = [ "Weather in London, United Kingdom:";
           "• Temperature: 15.2°C";
           "• Humidity: 70%";
           "• Wind Speed: 12.3 km/h";
           "• Conditions: Overcast" ].
Proof. eexists _, _. split; [reflexivity|]. repeat split. Qed.

Example london_in_fahrenheit :
  lines (OpenMeteo.weatherText london london_current fahrenheit)
  = [ "Weather in London, United Kingdom:";
      "• Temperature: 59.4°F";
      "• Humidity: 70%";
      "• Wind Speed: 12.3 km/h";
      "• Conditions: Overcast" ].
Proof. reflexivity. Qed.

(** A response that does not validate is answered as an error, with the
    message of the [ZodError]. *)
Example forecast_without_current :
  exists (t : list Effect) (message : string),
    OpenMeteo.getWeather 51.5074 (-0.1278) celsius
      (fun r => if is_nominatim r then inr london_address else inr (JObject []))
    = (t, inr {| isError := true; text := message |})
    /\ length (http_calls t) = 2%nat
    /\ message <> OpenMeteo.data_unavailable.
Proof. eexists _, _. split; [reflexivity|]. split; [reflexivity | discriminate]. Qed.

(** AccuWeather, from the JSON bodies: a humidity of 55, no humidity, a
    humidity of zero. *)
Example accu_with_humidity :
  exists (t : list Effect) (r : ToolResult),
    AccuWeather.getWeather accu_env None (Some 51.5) (Some (-0.1)) celsius
      (accu_world (Some 55)) = (t, inr r)
    /\ length (http_calls t) = 2%nat
    /\ lines (text r)
       = [ "Weather in London, United Kingdom:";
           "• Temperature: 20.6°C";
           "• Humidity: 55%";
           "• Wind Speed: 14.8 km/h";
           "• Conditions: Cloudy" ].
Proof. eexists _, _. split; [reflexivity|]. split; reflexivity. Qed.

Example accu_without_humidity :
  exists (t : list Effect) (r : ToolResult),
    AccuWeather.getWeather accu_env None (Some 51.5) (Some (-0.1)) fahrenheit
      (accu_world None) = (t, inr r)
    /\ lines (text r)
       = [ "Weather in London, United Kingdom:";
           "• Temperature: 69.0°F";
           "";
           "• Wind Speed: 14.8 km/h";
           "• Conditions: Cloudy" ].
Proof. eexists _, _. split; reflexivity. Qed.

Example accu_with_zero_humidity :
  snd (AccuWeather.getWeather accu_env None (Some 51.5) (Some (-0.1)) fahrenheit
         (accu_world (Some 0)))
  = snd (AccuWeather.getWeather accu_env None (Some 51.5) (Some (-0.1)) fahrenheit
           (accu_world None)).
Proof. reflexivity. Qed.

(** The coordinates of the inbound request stand in for missing
    parameters when they are numbers; a string does not pass the guard. *)
Example ambient_coordinates :
  fst (AccuWeather.getWeather accu_env
         (Some {| AccuWeather.cf :=
                    Some {| AccuWeather.cf_latitude := JNumber 51.5;
                            AccuWeather.cf_longitude := JNumber (-0.1) |} |})
         None None fahrenheit (accu_world None))
  = [ Fetch (AccuWeather.location_request 51.5 (-0.1) "secret");
      Fetch (AccuWeather.conditions_request "328328" "secret") ]
  /\ AccuWeather.getWeather accu_env
       (Some {| AccuWeather.cf :=
                  Some {| AccuWeather.cf_latitude := JString "51.5";
                          AccuWeather.cf_longitude := JString "-0.1" |} |})
       None None fahrenheit (accu_world None)
     = ([], inr {| isError := true; text := AccuWeather.latitude_required |}).
Proof. split; reflexivity. Qed.

(** The country server, for a request from Great Britain. *)
Example country_without_header :
  CountryWeather.getWeather None None nothing_found
  = ([], inr {| isError := true; text := "Country not detected" |}).
Proof. reflexivity. Qed.

Example country_found :
  exists (t : list Effect) (r : ToolResult),
    CountryWeather.getWeather (Some british_request) None
      (fun r =>
         if starts_with "https://geocoding-api.open-meteo.com/" (url r) then
           inr (JObject
                  [ ("results",
                     JArray
                       [ JObject
                           [ ("name", JString "United Kingdom");
                             ("latitude", JNumber 54.75844);
                             ("longitude", JNumber (-2.69531));
                             ("country", JString "United Kingdom") ] ]) ])
         else inr london_forecast)
    = (t, inr r)
    /\ map url (http_calls t)
       = [ "https://geocoding-api.open-meteo.com/v1/search?name=GB&count=1";
           "https://api.open-meteo.com/v1/forecast?latitude=54.75844&longitude=-2.69531&current=temperature_2m,relative_humidity_2m,wind_speed_10m,weather_code" ]
    /\ lines (text r)
       = [ "Weather in United Kingdom, United Kingdom:";
           "• Temperature: 15.2°C";
           "• Humidity: 70%";
           "• Wind Speed: 12.3 km/h";
           "• Conditions: Overcast" ].
Proof. eexists _, _. split; [reflexivity|]. split; reflexivity. Qed.

End Runs.

(* ====================================================================== *)
(** * Properties of the servers                                            *)
(* ====================================================================== *)

(** C10. In src/index.ts, once the weather response has passed
    [weatherResultSchema], the guard [!weatherData?.current] is false: the
    handler does not answer "Weather data not available or invalid API
    response" but the formatted text of the validated data. *)
Theorem current_guard_is_dead (latitude longitude : number) (unit : Js.Unit)
    (w : World) (t : list Effect) (loc : OpenMeteo.Location)
    (weatherJson weatherData : JsValue) :
  OpenMeteo.reverseGeocode latitude longitude w = (t, inr loc) ->
  w (OpenMeteo.forecast_request latitude longitude) = inr weatherJson ->
  validate OpenMeteo.weatherResultSchema [] weatherJson = inr weatherData ->
  negb (truthy (opt_property "current" weatherData)) = false
  /\ exists data : OpenMeteo.WeatherResult,
       OpenMeteo.getWeather latitude longitude unit w
       = ((t ++ [Fetch (OpenMeteo.forecast_request latitude longitude)])%list,
          inr {| isError := false; text := OpenMeteo.weatherText loc data unit |}).
Proof.
  intros Hgeo Hfetch Hvalid.
  destruct (HandlerFacts.OpenMeteo_success latitude longitude unit w t loc
              weatherJson weatherData Hgeo Hfetch Hvalid) as (Hguard & data & _ & Hrun).
  split; [now rewrite Hguard | now exists data].
Qed.

Lemma current_guard_is_dead_witness :
  negb (truthy (opt_property "current" Examples.bare_forecast)) = false
  /\ exists data : OpenMeteo.WeatherResult,
       OpenMeteo.getWeather 51.5074 (-0.1278) celsius Examples.london_world
       = ((fst (OpenMeteo.reverseGeocode 51.5074 (-0.1278) Examples.london_world)
           ++ [Fetch (OpenMeteo.forecast_request 51.5074 (-0.1278))])%list,
          inr {| isError := false;
                 text := OpenMeteo.weatherText Examples.london data celsius |}).
Proof.
  apply (current_guard_is_dead 51.5074 (-0.1278) celsius Examples.london_world
           _ Examples.london Examples.london_forecast Examples.bare_forecast);
    reflexivity.
Defined.

(** C4. In the AccuWeather server, when the latitude or the longitude is
    given neither as a parameter nor by the inbound request, the call
    answers an error whose message is "Latitude is required and could not
    be found" or "Longitude is required and could not be found", the
    former when the latitude is missing, the latter when the latitude is
    there; and the run performs no effect at all, so no HTTP request. *)
Theorem missing_coordinate_is_reported (env : AccuWeather.Env)
    (store : option AccuWeather.IncomingRequest)
    (latitude longitude : option number) (unit : Js.Unit) (w : World) :
  (latitude = None
   /\ AccuWeather.resolve None store AccuWeather.cf_latitude = JUndefined)
  \/ (longitude = None
      /\ AccuWeather.resolve None store AccuWeather.cf_longitude = JUndefined) ->
  exists message : string,
    AccuWeather.getWeather env store latitude longitude unit w
    = ([], inr {| isError := true; text := message |})
    /\ http_calls (fst (AccuWeather.getWeather env store latitude longitude unit w)) = []
    /\ (message = "Latitude is required and could not be found"
        \/ message = "Longitude is required and could not be found")
    /\ (latitude = None ->
        AccuWeather.resolve None store AccuWeather.cf_latitude = JUndefined ->
        message = "Latitude is required and could not be found")
    /\ (typeof (AccuWeather.resolve latitude store AccuWeather.cf_latitude) = "number" ->
        message = "Longitude is required and could not be found").
Proof.
  intros H.
  destruct (string_dec
              (typeof (AccuWeather.resolve latitude store AccuWeather.cf_latitude))
              "number") as [Hlat | Hlat].
  - assert (Hlong : typeof (AccuWeather.resolve longitude store AccuWeather.cf_longitude)
                    <> "number").
    { destruct H as [[-> E] | [-> E]]; [rewrite E in Hlat; discriminate Hlat|].
      rewrite E. discriminate. }
    exists AccuWeather.longitude_required.
    rewrite (HandlerFacts.AccuWeather_longitude env store latitude longitude unit w
               Hlat Hlong).
    repeat split; auto.
    intros -> E. rewrite E in Hlat. discriminate Hlat.
  - exists AccuWeather.latitude_required.
    rewrite (HandlerFacts.AccuWeather_latitude env store latitude longitude unit w Hlat).
    repeat split; auto.
    intros E. contradiction.
Qed.

Lemma missing_coordinate_is_reported_witness :
  exists message : string,
    AccuWeather.getWeather Examples.accu_env None (Some 51.5) None fahrenheit
      (Examples.accu_world None)
    = ([], inr {| isError := true; text := message |})
    /\ http_calls
         (fst (AccuWeather.getWeather Examples.accu_env None (Some 51.5) None fahrenheit
                 (Examples.accu_world None))) = []
    /\ (message = "Latitude is required and could not be found"
        \/ message = "Longitude is required and could not be found")
    /\ (Some 51.5 = None ->
        AccuWeather.resolve None None AccuWeather.cf_latitude = JUndefined ->
        message = "Latitude is required and could not be found")
    /\ (typeof (AccuWeather.resolve (Some 51.5) None AccuWeather.cf_latitude) = "number" ->
        message = "Longitude is required and could not be found").
Proof.
  apply (missing_coordinate_is_reported Examples.accu_env None (Some 51.5) None
           fahrenheit (Examples.accu_world None)).
  right. split; reflexivity.
Defined.

(** C7. In the AccuWeather server, when the API key is not configured
    (or is the empty string) the call answers an error and performs no
    effect at all, so no HTTP request goes out without a key; the message
    is "ACCUWEATHER_API_KEY is required" whenever both coordinates were
    resolved, and the message of the coordinate that was not otherwise. *)
Theorem missing_api_key_fails_fast (env : AccuWeather.Env)
    (store : option AccuWeather.IncomingRequest)
    (latitude longitude : option number) (unit : Js.Unit) (w : World) :
  AccuWeather.ACCUWEATHER_API_KEY env = None
  \/ AccuWeather.ACCUWEATHER_API_KEY env = Some "" ->
  exists message : string,
    AccuWeather.getWeather env store latitude longitude unit w
    = ([], inr {| isError := true; text := message |})
    /\ http_calls (fst (AccuWeather.getWeather env store latitude longitude unit w)) = []
    /\ In message [ "ACCUWEATHER_API_KEY is required";
                    "Latitude is required and could not be found";
                    "Longitude is required and could not be found" ]
    /\ (typeof (AccuWeather.resolve latitude store AccuWeather.cf_latitude) = "number" ->
        typeof (AccuWeather.resolve longitude store AccuWeather.cf_longitude) = "number" ->
        message = "ACCUWEATHER_API_KEY is required").
Proof.
  intros Hkey.
  assert (Hfalsy : truthy (AccuWeather.of_optional_string
                             (AccuWeather.ACCUWEATHER_API_KEY env)) = false).
  { destruct Hkey as [-> | ->]; reflexivity. }
  destruct (string_dec
              (typeof (AccuWeather.resolve latitude store AccuWeather.cf_latitude))
              "number") as [Hlat | Hlat];
    [destruct (string_dec
                 (typeof (AccuWeather.resolve longitude store AccuWeather.cf_longitude))
                 "number") as [Hlong | Hlong]|].
  - exists AccuWeather.api_key_required.
    rewrite (HandlerFacts.AccuWeather_api_key env store latitude longitude unit w
               Hlat Hlong Hfalsy).
    repeat split; cbn [In]; auto.
  - exists AccuWeather.longitude_required.
    rewrite (HandlerFacts.AccuWeather_longitude env store latitude longitude unit w
               Hlat Hlong).
    repeat split; cbn [In]; auto. intros _ E. contradiction.
  - exists AccuWeather.latitude_required.
    rewrite (HandlerFacts.AccuWeather_latitude env store latitude longitude unit w Hlat).
    repeat split; cbn [In]; auto. intros E. contradiction.
Qed.

Lemma missing_api_key_fails_fast_witness :
  exists message : string,
    AccuWeather.getWeather Examples.no_key_env None (Some 51.5) (Some 0.1) fahrenheit
      (Examples.accu_world None)
    = ([], inr {| isError := true; text := message |})
    /\ http_calls
         (fst (AccuWeather.getWeather Examples.no_key_env None (Some 51.5) (Some 0.1)
                 fahrenheit (Examples.accu_world None))) = []
    /\ In message [ "ACCUWEATHER_API_KEY is required";
                    "Latitude is required and could not be found";
                    "Longitude is required and could not be found" ]
    /\ (typeof (AccuWeather.resolve (Some 51.5) None AccuWeather.cf_latitude) = "number" ->
        typeof (AccuWeather.resolve (Some 0.1) None AccuWeather.cf_longitude) = "number" ->
        message = "ACCUWEATHER_API_KEY is required").
Proof.
  apply (missing_api_key_fails_fast Examples.no_key_env None (Some 51.5) (Some 0.1)
           fahrenheit (Examples.accu_world None)).
  left. reflexivity.
Defined.

(** C5. In the country server, when a country was resolved and the
    geocoder's body has no [results] or an empty [results], the call
    answers the error "Country not found"; the run sent the geocoding
    request and nothing else, in particular no forecast request. *)
Theorem country_not_found (request : option CountryWeather.IncomingRequest)
    (country : option string) (c : string) (props : list (string * JsValue))
    (w : World) :
  CountryWeather.resolve_country country request = Some c ->
  c <> "" ->
  w (CountryWeather.geocoding_request c) = inr (JObject props) ->
  lookup "results" props = None \/ lookup "results" props = Some (JArray []) ->
  CountryWeather.getWeather request country w
  = ([Fetch (CountryWeather.geocoding_request c)],
     inr {| isError := true; text := "Country not found" |})
  /\ forall latitude longitude : number,
       ~ In (CountryWeather.forecast_request latitude longitude)
            (http_calls (fst (CountryWeather.getWeather request country w))).
Proof.
  intros Hc Hne Hw Hres.
  assert (Hrun : CountryWeather.getWeather request country w
                 = ([Fetch (CountryWeather.geocoding_request c)],
                    inr {| isError := true; text := "Country not found" |})).
  { unfold CountryWeather.getWeather. rewrite Hc.
    destruct (String.eqb_spec c "") as [E|_]; [contradiction|].
    unfold bind, fetch_json. rewrite Hw.
    unfold CountryWeather.member, property. cbn [props_of].
    destruct Hres as [-> | ->]; reflexivity. }
  split; [exact Hrun|].
  intros latitude longitude. rewrite Hrun. cbn [fst http_calls In].
  intros [E | []]. discriminate E.
Qed.

Lemma country_not_found_witness :
  CountryWeather.getWeather (Some Examples.british_request) None Examples.nothing_found
  = ([Fetch (CountryWeather.geocoding_request "GB")],
     inr {| isError := true; text := "Country not found" |})
  /\ forall latitude longitude : number,
       ~ In (CountryWeather.forecast_request latitude longitude)
            (http_calls
               (fst (CountryWeather.getWeather (Some Examples.british_request) None
                       Examples.nothing_found))).
Proof.
  apply (country_not_found (Some Examples.british_request) None "GB"
           [("generationtime_ms", JNumber 0.5)] Examples.nothing_found).
  - reflexivity.
  - discriminate.
  - reflexivity.
  - left. reflexivity.
Defined.

(** C8. Formatting is a function of the observation, the unit and the
    location: on equal triples the two templates write the same text, and
    two invocations that obtained the same location and the same validated
    observation, from whatever coordinates, worlds, keys and requests,
    answer the same text for the same unit. *)
Theorem formatting_is_deterministic :
  (forall (loc loc' : OpenMeteo.Location) (data data' : OpenMeteo.WeatherResult)
          (unit unit' : Js.Unit),
     (data, unit, loc) = (data', unit', loc') ->
     OpenMeteo.weatherText loc data unit = OpenMeteo.weatherText loc' data' unit')
  /\ (forall (loc loc' : AccuWeather.Location)
             (data data' : AccuWeather.CurrentConditions) (unit unit' : Js.Unit),
        (data, unit, loc) = (data', unit', loc') ->
        AccuWeather.weatherText loc data unit = AccuWeather.weatherText loc' data' unit')
  /\ (forall (latitude longitude latitude' longitude' : number) (w w' : World)
             (unit : Js.Unit) (t t' : list Effect) (loc : OpenMeteo.Location)
             (json json' v v' : JsValue) (data : OpenMeteo.WeatherResult),
        OpenMeteo.reverseGeocode latitude longitude w = (t, inr loc) ->
        OpenMeteo.reverseGeocode latitude' longitude' w' = (t', inr loc) ->
        w (OpenMeteo.forecast_request latitude longitude) = inr json ->
        w' (OpenMeteo.forecast_request latitude' longitude') = inr json' ->
        validate OpenMeteo.weatherResultSchema [] json = inr v ->
        validate OpenMeteo.weatherResultSchema [] json' = inr v' ->
        OpenMeteo.as_WeatherResult v = Some data ->
        OpenMeteo.as_WeatherResult v' = Some data ->
        exists r r' : ToolResult,
          snd (OpenMeteo.getWeather latitude longitude unit w) = inr r
          /\ snd (OpenMeteo.getWeather latitude' longitude' unit w') = inr r'
          /\ text r = text r')
  /\ (forall (env env' : AccuWeather.Env)
             (store store' : option AccuWeather.IncomingRequest)
             (latitude longitude latitude' longitude' : option number)
             (w w' : World) (unit : Js.Unit)
             (lat long lat' long' : number) (apiKey apiKey' : string)
             (t1 t2 t1' t2' : list Effect)
             (loc : AccuWeather.Location) (data : AccuWeather.CurrentConditions),
        AccuWeather.resolve latitude store AccuWeather.cf_latitude = JNumber lat ->
        AccuWeather.resolve longitude store AccuWeather.cf_longitude = JNumber long ->
        AccuWeather.ACCUWEATHER_API_KEY env = Some apiKey ->
        apiKey <> "" ->
        AccuWeather.getLocationKey lat long apiKey w = (t1, inr loc) ->
        AccuWeather.getCurrentConditions (AccuWeather.locationKey loc) apiKey w
        = (t2, inr data) ->
        AccuWeather.resolve latitude' store' AccuWeather.cf_latitude = JNumber lat' ->
        AccuWeather.resolve longitude' store' AccuWeather.cf_longitude = JNumber long' ->
        AccuWeather.ACCUWEATHER_API_KEY env' = Some apiKey' ->
        apiKey' <> "" ->
        AccuWeather.getLocationKey lat' long' apiKey' w' = (t1', inr loc) ->
        AccuWeather.getCurrentConditions (AccuWeather.locationKey loc) apiKey' w'
        = (t2', inr data) ->
        exists r r' : ToolResult,
          snd (AccuWeather.getWeather env store latitude longitude unit w) = inr r
          /\ snd (AccuWeather.getWeather env' store' latitude' longitude' unit w') = inr r'
          /\ text r = text r').
Proof.
  split; [|split; [|split]].
  - intros loc loc' data data' unit unit' E. now injection E as -> -> ->.
  - intros loc loc' data data' unit unit' E. now injection E as -> -> ->.
  - intros latitude longitude latitude' longitude' w w' unit t t' loc json json'
           v v' data Hg Hg' Hw Hw' Hv Hv' Hd Hd'.
    destruct (HandlerFacts.OpenMeteo_success latitude longitude unit w t loc json v
                Hg Hw Hv) as (_ & d & E & Hrun).
    destruct (HandlerFacts.OpenMeteo_success latitude' longitude' unit w' t' loc json' v'
                Hg' Hw' Hv') as (_ & d' & E' & Hrun').
    rewrite Hd in E. injection E as <-.
    rewrite Hd' in E'. injection E' as <-.
    rewrite Hrun, Hrun'. eexists _, _. repeat split.
  - intros env env' store store' latitude longitude latitude' longitude' w w' unit
           lat long lat' long' apiKey apiKey' t1 t2 t1' t2' loc data
           H1 H2 H3 H4 H5 H6 H1' H2' H3' H4' H5' H6'.
    rewrite (HandlerFacts.AccuWeather_success env store latitude longitude unit w
               lat long apiKey t1 t2 loc data H1 H2 H3 H4 H5 H6).
    rewrite (HandlerFacts.AccuWeather_success env' store' latitude' longitude' unit w'
               lat' long' apiKey' t1' t2' loc data H1' H2' H3' H4' H5' H6').
    eexists _, _. repeat split.
Qed.

Lemma formatting_is_deterministic_witness :
  exists r r' : ToolResult,
    snd (OpenMeteo.getWeather 51.5074 (-0.1278) celsius Examples.london_world) = inr r
    /\ snd (OpenMeteo.getWeather 51.5 (-0.12) celsius Examples.bare_world) = inr r'
    /\ text r = text r'.
Proof.
  eapply (proj1 (proj2 (proj2 formatting_is_deterministic))
            51.5074 (-0.1278) 51.5 (-0.12) Examples.london_world Examples.bare_world
            celsius _ _ Examples.london
           Examples.london_forecast Examples.bare_forecast
           Examples.bare_forecast Examples.bare_forecast Examples.london_current);
    reflexivity.
Defined.




(** C2, as the code has it. When the texts of the observation are single
    lines: with the humidity absent no line of the text is a humidity
    bullet, and with the wind absent no line is a wind bullet; with the
    humidity present and not zero its bullet is a line of the text, and
    with the wind present its bullet is a line of the text. *)
Theorem optional_bullets (loc : AccuWeather.Location)
    (weatherData : AccuWeather.CurrentConditions) (unit : Js.Unit) :
  single_line (AccuWeather.city loc) = true ->
  single_line (AccuWeather.country loc) = true ->
  (forall w : AccuWeather.WindData,
     AccuWeather.Wind weatherData = Some w ->
     single_line (AccuWeather.Unit (AccuWeather.Metric (AccuWeather.Speed w))) = true) ->
  single_line (AccuWeather.WeatherText weatherData) = true ->
  (AccuWeather.RelativeHumidity weatherData = None ->
   Forall (fun l => starts_with "• Humidity" l = false)
          (lines (AccuWeather.weatherText loc weatherData unit)))
  /\ (forall h : number,
        AccuWeather.RelativeHumidity weatherData = Some h -> ~ h == 0 ->
        In ("• Humidity: " ++ Number_toString h ++ "%")
           (lines (AccuWeather.weatherText loc weatherData unit)))
  /\ (AccuWeather.Wind weatherData = None ->
      Forall (fun l => starts_with "• Wind Speed" l = false)
             (lines (AccuWeather.weatherText loc weatherData unit)))
  /\ (forall w : AccuWeather.WindData,
        AccuWeather.Wind weatherData = Some w ->
        In ("• Wind Speed: "
            ++ Number_toString
                 (AccuWeather.Value (AccuWeather.Metric (AccuWeather.Speed w)))
            ++ " " ++ AccuWeather.Unit (AccuWeather.Metric (AccuWeather.Speed w)))
           (lines (AccuWeather.weatherText loc weatherData unit))).
Proof.
  intros Hcity Hcountry Hunit Htext.
  rewrite (ServerTexts.AccuWeather_lines loc weatherData unit Hcity Hcountry Hunit Htext).
  split; [|split; [|split]].
  - intros ->. repeat constructor.
    now destruct (AccuWeather.Wind weatherData).
  - intros h -> Hh. cbn [truthy].
    destruct (Qeq_bool h 0) eqn:E; [apply Qeq_bool_eq in E; contradiction|].
    cbn [negb In]. auto.
  - intros ->. repeat constructor.
    destruct (AccuWeather.RelativeHumidity weatherData) as [h|]; [|reflexivity].
    now destruct (truthy (JNumber h)).
  - intros w ->. cbn [In]. auto.
Qed.

Lemma optional_bullets_witness :
  (Some 55 = None ->
   Forall (fun l => starts_with "• Humidity" l = false)
          (lines (AccuWeather.weatherText Examples.accu_london
                    (Examples.accu_current (Some 55)) celsius)))
  /\ (forall h : number,
        Some 55 = Some h -> ~ h == 0 ->
        In ("• Humidity: " ++ Number_toString h ++ "%")
           (lines (AccuWeather.weatherText Examples.accu_london
                     (Examples.accu_current (Some 55)) celsius)))
  /\ (Some {| AccuWeather.Speed := Examples.dual 14.8 "km/h" 9.2 "mi/h" |} = None ->
      Forall (fun l => starts_with "• Wind Speed" l = false)
             (lines (AccuWeather.weatherText Examples.accu_london
                       (Examples.accu_current (Some 55)) celsius)))
  /\ (forall w : AccuWeather.WindData,
        Some {| AccuWeather.Speed := Examples.dual 14.8 "km/h" 9.2 "mi/h" |} = Some w ->
        In ("• Wind Speed: "
            ++ Number_toString
                 (AccuWeather.Value (AccuWeather.Metric (AccuWeather.Speed w)))
            ++ " " ++ AccuWeather.Unit (AccuWeather.Metric (AccuWeather.Speed w)))
           (lines (AccuWeather.weatherText Examples.accu_london
                     (Examples.accu_current (Some 55)) celsius))).
Proof.
  apply (optional_bullets Examples.accu_london (Examples.accu_current (Some 55)) celsius);
    try reflexivity.
  intros w E. injection E as <-. reflexivity.
Defined.

(** C2 as stated fails twice. With the humidity absent the third line of
    the text is an empty line; with a humidity of zero present no line is
    a humidity bullet. *)
Lemma optional_bullets_counterexample :
  (AccuWeather.RelativeHumidity (Examples.accu_current None) = None
   /\ lines (AccuWeather.weatherText Examples.accu_london (Examples.accu_current None)
               fahrenheit)
      = [ "Weather in London, United Kingdom:"; "• Temperature: 69.0°F"; "";
          "• Wind Speed: 14.8 km/h"; "• Conditions: Cloudy" ])
  /\ (AccuWeather.RelativeHumidity (Examples.accu_current (Some 0)) = Some 0
      /\ Forall (fun l => starts_with "• Humidity" l = false)
                (lines (AccuWeather.weatherText Examples.accu_london
                          (Examples.accu_current (Some 0)) fahrenheit))).
Proof.
  split; split; try reflexivity.
  vm_compute. repeat constructor.
Qed.

(** C9. In the AccuWeather server a humidity that is present and zero is
    falsy: the text is the one written when the humidity is absent, and,
    the texts of the observation being single lines, none of its lines is
    a humidity bullet and its third line is empty. *)
Theorem zero_humidity_has_no_bullet (loc : AccuWeather.Location)
    (weatherData : AccuWeather.CurrentConditions) (unit : Js.Unit) (h : number) :
  AccuWeather.RelativeHumidity weatherData = Some h ->
  h == 0 ->
  single_line (AccuWeather.city loc) = true ->
  single_line (AccuWeather.country loc) = true ->
  (forall w : AccuWeather.WindData,
     AccuWeather.Wind weatherData = Some w ->
     single_line (AccuWeather.Unit (AccuWeather.Metric (AccuWeather.Speed w))) = true) ->
  single_line (AccuWeather.WeatherText weatherData) = true ->
  truthy (JNumber h) = false
  /\ AccuWeather.weatherText loc weatherData unit
     = AccuWeather.weatherText loc
         {| AccuWeather.WeatherText := AccuWeather.WeatherText weatherData;
            AccuWeather.Temperature := AccuWeather.Temperature weatherData;
            AccuWeather.RelativeHumidity := None;
            AccuWeather.Wind := AccuWeather.Wind weatherData |}
         unit
  /\ Forall (fun l => starts_with "• Humidity" l = false)
            (lines (AccuWeather.weatherText loc weatherData unit))
  /\ nth 2 (lines (AccuWeather.weatherText loc weatherData unit)) "?" = "".
Proof.
  intros Hh Hzero Hcity Hcountry Hunit Htext.
  assert (Hfalsy : truthy (JNumber h) = false).
  { cbn [truthy]. now rewrite (Qeq_eq_bool _ _ Hzero). }
  split; [exact Hfalsy|]. split.
  - unfold AccuWeather.weatherText. cbn [AccuWeather.RelativeHumidity
      AccuWeather.Temperature AccuWeather.Wind AccuWeather.WeatherText].
    now rewrite Hh, Hfalsy.
  - rewrite (ServerTexts.AccuWeather_lines loc weatherData unit Hcity Hcountry Hunit Htext).
    rewrite Hh, Hfalsy. split; [|reflexivity].
    repeat constructor. now destruct (AccuWeather.Wind weatherData).
Qed.

Lemma zero_humidity_has_no_bullet_witness :
  truthy (JNumber 0) = false
  /\ AccuWeather.weatherText Examples.accu_london (Examples.accu_current (Some 0)) fahrenheit
     = AccuWeather.weatherText Examples.accu_london
         {| AccuWeather.WeatherText :=
              AccuWeather.WeatherText (Examples.accu_current (Some 0));
            AccuWeather.Temperature :=
              AccuWeather.Temperature (Examples.accu_current (Some 0));
            AccuWeather.RelativeHumidity := None;
            AccuWeather.Wind := AccuWeather.Wind (Examples.accu_current (Some 0)) |}
         fahrenheit
  /\ Forall (fun l => starts_with "• Humidity" l = false)
            (lines (AccuWeather.weatherText Examples.accu_london
                      (Examples.accu_current (Some 0)) fahrenheit))
  /\ nth 2 (lines (AccuWeather.weatherText Examples.accu_london
                     (Examples.accu_current (Some 0)) fahrenheit)) "?" = "".
Proof.
  apply (zero_humidity_has_no_bullet Examples.accu_london (Examples.accu_current (Some 0))
           fahrenheit 0); try reflexivity.
  intros w E. injection E as <-. reflexivity.
Defined.

(* ====================================================================== *)
(** * Further properties: runs, fallbacks, texts                           *)
(* ====================================================================== *)

Module RunFacts.
Import Calls.

Lemma getErrorMessage_total (e : JsValue) (w : World) :
  exists (t : list Effect) (s : string),
    Shared.getErrorMessage e w = (t, inr s) /\ http_calls t = [].
Proof.
  unfold Shared.getErrorMessage.
  destruct (typeof e =? "string"); [eexists _, _; split; reflexivity|].
  match goal with |- context [if ?b then _ else _] => destruct b end;
    eexists _, _; split; reflexivity.
Qed.

Lemma http_calls_app (t t' : list Effect) :
  http_calls (t ++ t') = (http_calls t ++ http_calls t')%list.
Proof.
  induction t as [|[r|args] t IH]; cbn [http_calls app]; [reflexivity| |exact IH].
  now rewrite IH.
Qed.

(** The [catch] clause of the two handlers that have one. *)
Lemma catch_answers (e : JsValue) (w : World) :
  exists (t : list Effect) (message : string),
    (message <- Shared.getErrorMessage e ;; ret {| isError := true; text := message |}) w
    = (t, inr {| isError := true; text := message |})
    /\ http_calls t = [].
Proof.
  destruct (getErrorMessage_total e w) as (t & s & E & Ht).
  exists (t ++ [])%list, s. unfold bind. rewrite E. cbn.
  split; [reflexivity|]. now rewrite app_nil_r.
Qed.

Lemma reverseGeocode_trace (latitude longitude : number) (w : World) :
  fst (OpenMeteo.reverseGeocode latitude longitude w)
  = [Fetch (geocode_request latitude longitude)].
Proof.
  unfold OpenMeteo.reverseGeocode, bind, fetch_json, parse, typed, geocode_request.
  destruct (w _) as [e|json]; [reflexivity|].
  destruct (validate _ _ _) as [issues|data]; [reflexivity|].
  unfold ret at 1. cbv beta iota.
  destruct (OpenMeteo.as_Response data); reflexivity.
Qed.

Lemma bind_eq {A B : Type} (m : M A) (k : A -> M B) (w : World) :
  bind m k w
  = match m w with
    | (t, inl e) => (t, inl e)
    | (t, inr a) => ((t ++ fst (k a w))%list, snd (k a w))
    end.
Proof. unfold bind. destruct (m w) as [t [e|a]]; [reflexivity|]. now destruct (k a w). Qed.

Lemma try_catch_eq {A : Type} (m : M A) (h : JsValue -> M A) (w : World) :
  try_catch m h w
  = match m w with
    | (t, inl e) => ((t ++ fst (h e w))%list, snd (h e w))
    | (t, inr a) => (t, inr a)
    end.
Proof. unfold try_catch. destruct (m w) as [t [e|a]]; [|reflexivity]. now destruct (h e w). Qed.

Lemma bind_ret {A B : Type} (a : A) (k : A -> M B) (w : World) :
  bind (ret a) k w = k a w.
Proof. unfold bind, ret. now destruct (k a w). Qed.

Lemma bind_throw {A B : Type} (e : JsValue) (k : A -> M B) (w : World) :
  bind (throw e) k w = ([], inl e).
Proof. reflexivity. Qed.

Lemma bind_fetch {B : Type} (r : Request) (k : JsValue -> M B) (w : World) :
  bind (fetch_json r) k w
  = match w r with
    | inl e => ([Fetch r], inl e)
    | inr body => let '(t, x) := k body w in (Fetch r :: t, x)
    end.
Proof.
  unfold bind, fetch_json. now destruct (w r) as [e|body].
Qed.

Lemma OpenMeteo_outcome (latitude longitude : number) (unit : Js.Unit) (w : World) :
  (exists (loc : OpenMeteo.Location) (json v : JsValue) (data : OpenMeteo.WeatherResult),
      OpenMeteo.reverseGeocode latitude longitude w
      = ([Fetch (geocode_request latitude longitude)], inr loc)
      /\ w (OpenMeteo.forecast_request latitude longitude) = inr json
      /\ validate OpenMeteo.weatherResultSchema [] json = inr v
      /\ OpenMeteo.as_WeatherResult v = Some data
      /\ OpenMeteo.getWeather latitude longitude unit w
         = ([Fetch (geocode_request latitude longitude);
             Fetch (OpenMeteo.forecast_request latitude longitude)],
            inr {| isError := false; text := OpenMeteo.weatherText loc data unit |}))
  \/ (exists (t : list Effect) (message : string),
        OpenMeteo.getWeather latitude longitude unit w
        = (t, inr {| isError := true; text := message |})
        /\ (http_calls t = [geocode_request latitude longitude]
            \/ http_calls t = [geocode_request latitude longitude;
                               OpenMeteo.forecast_request latitude longitude])).
Proof.
  pose proof (reverseGeocode_trace latitude longitude w) as Ht.
  unfold OpenMeteo.getWeather. rewrite try_catch_eq, bind_eq.
  destruct (OpenMeteo.reverseGeocode latitude longitude w) as [t1 [e|loc]] eqn:Hg;
    cbn [fst] in Ht; subst t1.
  - right. destruct (catch_answers e w) as (t & m & E & Hc). rewrite E.
    eexists _, _. split; [reflexivity|]. left.
    cbn [fst snd app http_calls]. rewrite ?http_calls_app, ?Hc. reflexivity.
  - rewrite bind_eq. unfold fetch_json.
    destruct (w (OpenMeteo.forecast_request latitude longitude)) as [e|json] eqn:Hw.
    + right. destruct (catch_answers e w) as (t & m & E & Hc). cbn [fst snd app].
      rewrite E.
      eexists _, _. split; [reflexivity|]. right.
      cbn [fst snd app http_calls]. rewrite ?http_calls_app, ?Hc. reflexivity.
    + rewrite bind_eq. unfold parse.
      destruct (validate OpenMeteo.weatherResultSchema [] json) as [issues|v] eqn:Hv.
      * right. cbn [throw fst snd app].
        destruct (catch_answers (ZodError issues) w) as (t & m & E & Hc).
        rewrite E. eexists _, _. split; [reflexivity|]. right.
        cbn [fst snd app http_calls]. rewrite ?http_calls_app, ?Hc. reflexivity.
      * destruct (ZodFacts.weatherResultSchema_inr _ _ Hv) as (a & b & c & d & ->).
        left. eexists loc, json, _, _. repeat split; try eassumption; reflexivity.
Qed.

Lemma validate_string_inr (p : list string) (v v' : JsValue) :
  validate ZString p v = inr v' -> exists s : string, v = JString s /\ v' = JString s.
Proof.
  destruct v; cbn [validate]; intros H; try discriminate H.
  injection H as <-. eauto.
Qed.

Lemma property_JString (k : string) (props : list (string * JsValue)) (s : string) :
  property k (JObject props) = JString s -> lookup k props = Some (JString s).
Proof.
  unfold property. cbn [props_of].
  destruct (lookup k props) as [x|]; [now intros ->|discriminate].
Qed.

Lemma property_JNumber (k : string) (props : list (string * JsValue)) (x : number) :
  property k (JObject props) = JNumber x -> lookup k props = Some (JNumber x).
Proof.
  unfold property. cbn [props_of].
  destruct (lookup k props) as [y|]; [now intros ->|discriminate].
Qed.

Lemma property_JObject (k : string) (props ps : list (string * JsValue)) :
  property k (JObject props) = JObject ps -> lookup k props = Some (JObject ps).
Proof.
  unfold property. cbn [props_of].
  destruct (lookup k props) as [y|]; [now intros ->|discriminate].
Qed.

Lemma getLocationKey_trace (latitude longitude : number) (apiKey : string) (w : World) :
  fst (AccuWeather.getLocationKey latitude longitude apiKey w)
  = [Fetch (AccuWeather.location_request latitude longitude apiKey)].
Proof.
  unfold AccuWeather.getLocationKey. rewrite bind_eq. unfold fetch_json.
  destruct (w _) as [e|json]; [reflexivity|].
  rewrite bind_eq. unfold parse.
  destruct (validate _ _ _) as [issues|data]; [reflexivity|].
  unfold ret at 1. cbv beta iota. rewrite bind_eq. unfold typed.
  destruct (AccuWeather.as_LocationData data); reflexivity.
Qed.

Lemma getCurrentConditions_trace (locationKey apiKey : string) (w : World) :
  fst (AccuWeather.getCurrentConditions locationKey apiKey w)
  = [Fetch (AccuWeather.conditions_request locationKey apiKey)].
Proof.
  unfold AccuWeather.getCurrentConditions. rewrite bind_eq. unfold fetch_json.
  destruct (w _) as [e|json]; [reflexivity|].
  rewrite bind_eq.
  assert (H : exists r, AccuWeather.element0 json w = ([], r)).
  { unfold AccuWeather.element0.
    destruct json as [| |b|x|z|s|d|ps|items|ps]; try (eexists; reflexivity).
    - destruct s; eexists; reflexivity.
    - destruct items; eexists; reflexivity. }
  destruct H as [[e|first] ->]; [reflexivity|].
  rewrite bind_eq. unfold parse.
  destruct (validate _ _ _) as [issues|data]; [reflexivity|].
  unfold ret at 1. cbv beta iota. unfold typed.
  destruct (AccuWeather.as_CurrentConditions data); reflexivity.
Qed.

(** What [getLocationKey] returns is what the body of the location
    search holds. *)
Lemma getLocationKey_inr (latitude longitude : number) (apiKey : string) (w : World)
    (t : list Effect) (loc : AccuWeather.Location) :
  AccuWeather.getLocationKey latitude longitude apiKey w = (t, inr loc) ->
  exists (props cprops : list (string * JsValue)),
    w (AccuWeather.location_request latitude longitude apiKey) = inr (JObject props)
    /\ lookup "Key" props = Some (JString (AccuWeather.locationKey loc))
    /\ lookup "LocalizedName" props = Some (JString (AccuWeather.city loc))
    /\ lookup "Country" props = Some (JObject cprops)
    /\ lookup "LocalizedName" cprops = Some (JString (AccuWeather.country loc)).
Proof.
  unfold AccuWeather.getLocationKey. rewrite bind_eq. unfold fetch_json.
  destruct (w _) as [e|json]; [discriminate|].
  rewrite bind_eq. unfold parse.
  destruct (validate _ _ _) as [issues|data] eqn:Hv; [discriminate|].
  unfold AccuWeather.accuWeatherLocationSchema in Hv.
  destruct (ZodFacts.validate_object_inr _ _ _ _ Hv) as [props ->].
  apply ZodFacts.validate_object_cons_inr in Hv.
  destruct Hv as (k & o1 & Hk & H1 & ->).
  apply ZodFacts.validate_object_cons_inr in H1.
  destruct H1 as (n & o2 & Hn & H2 & E1). injection E1 as ->.
  apply ZodFacts.validate_object_cons_inr in H2.
  destruct H2 as (c & o3 & Hc & H3 & E2). injection E2 as ->.
  rewrite ZodFacts.validate_object_nil in H3. injection H3 as <-.
  destruct (ZodFacts.validate_object_inr _ _ _ _ Hc) as [cprops Ec].
  rewrite Ec in Hc.
  apply ZodFacts.validate_object_cons_inr in Hc.
  destruct Hc as (cn & o4 & Hcn & H4 & ->).
  rewrite ZodFacts.validate_object_nil in H4. injection H4 as <-.
  apply validate_string_inr in Hk, Hn, Hcn.
  destruct Hk as (k' & Ek & ->), Hn as (n' & En & ->), Hcn as (c' & Ecn & ->).
  intros H. cbn in H. injection H as _ <-. cbn.
  exists props, cprops. repeat split; try reflexivity.
  - now apply property_JString.
  - now apply property_JString.
  - now apply property_JObject.
  - now apply property_JString.
Qed.

Lemma typeof_number (v : JsValue) :
  typeof v = "number" -> exists x : number, v = JNumber x.
Proof. destruct v; try discriminate. eauto. Qed.

(** The guards of the AccuWeather handler let pass the calls whose
    coordinates are numbers and whose key is not empty. *)
Lemma AccuWeather_guards (env : AccuWeather.Env)
    (store : option AccuWeather.IncomingRequest) (latitude longitude : option number) :
  (exists (lat long : number) (apiKey : string),
      AccuWeather.resolve latitude store AccuWeather.cf_latitude = JNumber lat
      /\ AccuWeather.resolve longitude store AccuWeather.cf_longitude = JNumber long
      /\ AccuWeather.ACCUWEATHER_API_KEY env = Some apiKey
      /\ apiKey <> "")
  \/ (forall (unit : Js.Unit) (w : World),
        exists message : string,
          AccuWeather.getWeather env store latitude longitude unit w
          = ([], inr {| isError := true; text := message |})).
Proof.
  destruct (string_dec
              (typeof (AccuWeather.resolve latitude store AccuWeather.cf_latitude))
              "number") as [Hlat | Hlat].
  2:{ right. intros. eexists. now apply HandlerFacts.AccuWeather_latitude. }
  destruct (string_dec
              (typeof (AccuWeather.resolve longitude store AccuWeather.cf_longitude))
              "number") as [Hlong | Hlong].
  2:{ right. intros. eexists. now apply HandlerFacts.AccuWeather_longitude. }
  destruct (AccuWeather.ACCUWEATHER_API_KEY env) as [k|] eqn:Hk.
  2:{ right. intros. eexists. apply HandlerFacts.AccuWeather_api_key; auto.
      now rewrite Hk. }
  destruct (string_dec k "") as [->|Hne].
  { right. intros. eexists. apply HandlerFacts.AccuWeather_api_key; auto.
    now rewrite Hk. }
  left. destruct (typeof_number _ Hlat) as [la Ela].
  destruct (typeof_number _ Hlong) as [lo Elo].
  now exists la, lo, k.
Qed.

(** Past the guards: the two calls, in order. *)
Lemma AccuWeather_guarded (env : AccuWeather.Env)
    (store : option AccuWeather.IncomingRequest)
    (latitude longitude : option number) (unit : Js.Unit) (w : World)
    (lat long : number) (apiKey : string) :
  AccuWeather.resolve latitude store AccuWeather.cf_latitude = JNumber lat ->
  AccuWeather.resolve longitude store AccuWeather.cf_longitude = JNumber long ->
  AccuWeather.ACCUWEATHER_API_KEY env = Some apiKey ->
  apiKey <> "" ->
  (exists (loc : AccuWeather.Location) (data : AccuWeather.CurrentConditions),
      AccuWeather.getLocationKey lat long apiKey w
      = ([Fetch (AccuWeather.location_request lat long apiKey)], inr loc)
      /\ AccuWeather.getCurrentConditions (AccuWeather.locationKey loc) apiKey w
         = ([Fetch (AccuWeather.conditions_request (AccuWeather.locationKey loc) apiKey)],
            inr data)
      /\ AccuWeather.getWeather env store latitude longitude unit w
         = ([Fetch (AccuWeather.location_request lat long apiKey);
             Fetch (AccuWeather.conditions_request (AccuWeather.locationKey loc) apiKey)],
            inr {| isError := false;
                   text := AccuWeather.weatherText loc data unit |}))
  \/ (exists (t : list Effect) (message : string),
        AccuWeather.getWeather env store latitude longitude unit w
        = (t, inr {| isError := true; text := message |})
        /\ ((exists e : JsValue,
                AccuWeather.getLocationKey lat long apiKey w
                = ([Fetch (AccuWeather.location_request lat long apiKey)], inl e)
                /\ http_calls t = [AccuWeather.location_request lat long apiKey])
            \/ exists (loc : AccuWeather.Location) (e : JsValue),
                 AccuWeather.getLocationKey lat long apiKey w
                 = ([Fetch (AccuWeather.location_request lat long apiKey)], inr loc)
                 /\ AccuWeather.getCurrentConditions (AccuWeather.locationKey loc)
                      apiKey w
                    = ([Fetch (AccuWeather.conditions_request
                                 (AccuWeather.locationKey loc) apiKey)], inl e)
                 /\ http_calls t
                    = [AccuWeather.location_request lat long apiKey;
                       AccuWeather.conditions_request (AccuWeather.locationKey loc)
                         apiKey])).
Proof.
  intros Hlat Hlong Hkey Hne.
  pose proof (getLocationKey_trace lat long apiKey w) as Ht1.
  assert (E : truthy (AccuWeather.of_optional_string (Some apiKey)) = true).
  { cbn. apply negb_true_iff, String.eqb_neq, Hne. }
  unfold AccuWeather.getWeather. cbv zeta.
  match goal with |- context [try_catch ?m ?h w] => set (handler := h) end.
  rewrite try_catch_eq.
  rewrite Hlat, Hlong, Hkey, E.
  cbn [typeof String.eqb Ascii.eqb Bool.eqb invariant AccuWeather.of_optional_string].
  repeat (rewrite !bind_eq; cbn [ret typed as_number as_string fst snd app]).
  destruct (AccuWeather.getLocationKey lat long apiKey w) as [t1 [e|loc]] eqn:Hloc;
    cbn [fst] in Ht1; subst t1.
  - right. destruct (catch_answers e w) as (t & m & Ec & Hc).
    unfold handler. cbn [fst snd app]. cbv beta. rewrite Ec.
    eexists _, _. split; [reflexivity|]. left. exists e. split; [reflexivity|].
    cbn [fst snd app http_calls]. rewrite ?http_calls_app, ?Hc. reflexivity.
  - cbn [fst snd app]. rewrite !bind_eq.
    pose proof (getCurrentConditions_trace (AccuWeather.locationKey loc) apiKey w) as Ht2.
    destruct (AccuWeather.getCurrentConditions (AccuWeather.locationKey loc) apiKey w)
      as [t2 [e|data]] eqn:Hcond; cbn [fst] in Ht2; subst t2.
    + right. destruct (catch_answers e w) as (t & m & Ec & Hc).
      unfold handler. cbn [fst snd app]. cbv beta. rewrite Ec.
      eexists _, _. split; [reflexivity|]. right. exists loc, e.
      split; [reflexivity|]. split; [exact Hcond|].
      cbn [fst snd app http_calls]. rewrite ?http_calls_app, ?Hc. reflexivity.
    + left. exists loc, data. repeat split; first [exact Hcond | reflexivity].
Qed.

End RunFacts.

Module GeoFacts.
Import Calls RunFacts.

Lemma or_else_nonempty (a : option string) (b : string) :
  b <> "" -> Shared.or_else a b <> "".
Proof.
  intros Hb. destruct a as [s|]; cbn; [|exact Hb].
  destruct (String.eqb_spec s ""); assumption.
Qed.

(** A field of the address as the response gives it: a string, or absent. *)
Lemma reverseGeocode_address (latitude longitude : number) (w : World)
    (props aprops : list (string * JsValue)) (c t v co : option string) :
  w (geocode_request latitude longitude) = inr (JObject props) ->
  lookup "address" props = Some (JObject aprops) ->
  lookup "city" aprops = option_map JString c ->
  lookup "town" aprops = option_map JString t ->
  lookup "village" aprops = option_map JString v ->
  lookup "country" aprops = option_map JString co ->
  OpenMeteo.reverseGeocode latitude longitude w
  = ([Fetch (geocode_request latitude longitude)],
     inr {| OpenMeteo.city :=
              Shared.or_else c (Shared.or_else t (Shared.or_else v "Unknown location"));
            OpenMeteo.country := Shared.or_else co "Unknown country" |}).
Proof.
  intros Hw Ha Hc Ht Hv Hco.
  unfold OpenMeteo.reverseGeocode. rewrite bind_eq. unfold fetch_json.
  change {| url := _; query := []; headers := _ |} with (geocode_request latitude longitude).
  rewrite Hw. cbn [fst snd app]. rewrite !bind_eq.
  unfold parse, OpenMeteo.nominatimResponseSchema.
  cbn [validate]. unfold property, has_property. cbn [props_of].
  rewrite Ha. cbn [validate]. unfold property, has_property. cbn [props_of].
  rewrite Hc, Ht, Hv, Hco.
  destruct c, t, v, co; reflexivity.
Qed.

Lemma reverseGeocode_no_address (latitude longitude : number) (w : World)
    (props : list (string * JsValue)) :
  w (geocode_request latitude longitude) = inr (JObject props) ->
  lookup "address" props = None ->
  OpenMeteo.reverseGeocode latitude longitude w
  = ([Fetch (geocode_request latitude longitude)],
     inr {| OpenMeteo.city := "Unknown location";
            OpenMeteo.country := "Unknown country" |}).
Proof.
  intros Hw Ha.
  unfold OpenMeteo.reverseGeocode. rewrite bind_eq. unfold fetch_json.
  change {| url := _; query := []; headers := _ |} with (geocode_request latitude longitude).
  rewrite Hw. cbn [fst snd app]. rewrite !bind_eq.
  unfold parse, OpenMeteo.nominatimResponseSchema.
  cbn [validate]. unfold property, has_property. cbn [props_of].
  rewrite Ha. reflexivity.
Qed.

Lemma reverseGeocode_nonempty (latitude longitude : number) (w : World)
    (t : list Effect) (loc : OpenMeteo.Location) :
  OpenMeteo.reverseGeocode latitude longitude w = (t, inr loc) ->
  OpenMeteo.city loc <> "" /\ OpenMeteo.country loc <> "".
Proof.
  unfold OpenMeteo.reverseGeocode. rewrite bind_fetch.
  destruct (w _) as [e|json]; [intros H; discriminate H|].
  unfold parse.
  destruct (validate _ _ _) as [issues|data];
    [rewrite bind_throw; intros H; discriminate H|].
  rewrite bind_ret. unfold typed.
  destruct (OpenMeteo.as_Response data) as [r|];
    [|rewrite bind_throw; intros H; discriminate H].
  rewrite bind_ret. cbn [ret]. intros H. injection H as _ <-.
  cbn [OpenMeteo.city OpenMeteo.country].
  split; repeat apply or_else_nonempty; discriminate.
Qed.

End GeoFacts.

Module CountryFacts.
Import RunFacts.

Lemma entry_truthy (v : JsValue) (place : CountryWeather.GeocodingEntry) :
  CountryWeather.as_GeocodingEntry v = Some place -> truthy v = true.
Proof.
  unfold CountryWeather.as_GeocodingEntry, property.
  destruct v; cbn [props_of lookup as_string]; try discriminate; reflexivity.
Qed.

Lemma current_truthy (v : JsValue) (current : CountryWeather.Current) :
  CountryWeather.as_Current v = Some current -> truthy v = true.
Proof.
  unfold CountryWeather.as_Current, property.
  destruct v; cbn [props_of lookup as_number]; try discriminate; reflexivity.
Qed.

(** The country handler up to its second request: a country, a body
    with a first result of the declared type. *)
Lemma to_forecast (request : option CountryWeather.IncomingRequest)
    (country : option string) (c : string) (w : World)
    (props : list (string * JsValue)) (entry : JsValue) (rest : list JsValue)
    (place : CountryWeather.GeocodingEntry) :
  CountryWeather.resolve_country country request = Some c ->
  c <> "" ->
  w (CountryWeather.geocoding_request c) = inr (JObject props) ->
  lookup "results" props = Some (JArray (entry :: rest)) ->
  CountryWeather.as_GeocodingEntry entry = Some place ->
  CountryWeather.getWeather request country w
  = match w (CountryWeather.forecast_request
               (CountryWeather.latitude place) (CountryWeather.longitude place)) with
    | inl e =>
        ([Fetch (CountryWeather.geocoding_request c);
          Fetch (CountryWeather.forecast_request
                   (CountryWeather.latitude place) (CountryWeather.longitude place))],
         inl e)
    | inr weatherData =>
        let '(t, r) :=
          (current <- CountryWeather.member "current" weatherData ;;
           if negb (truthy current) then
             ret {| isError := true; text := "Weather data not available" |}
           else
             current <- typed CountryWeather.as_Current current ;;
             ret {| isError := false; text := CountryWeather.weatherText place current |}) w in
        (Fetch (CountryWeather.geocoding_request c)
         :: Fetch (CountryWeather.forecast_request
                     (CountryWeather.latitude place) (CountryWeather.longitude place))
         :: t, r)
    end.
Proof.
  intros Hc Hne Hw Hres Hentry.
  unfold CountryWeather.getWeather. rewrite Hc.
  destruct (String.eqb_spec c "") as [E|_]; [contradiction|].
  rewrite bind_fetch, Hw. unfold CountryWeather.member at 1.
  rewrite bind_ret. unfold property. cbn [props_of]. rewrite Hres.
  cbn [CountryWeather.opt_element0]. rewrite (entry_truthy _ _ Hentry).
  cbn [negb]. unfold typed at 1. rewrite Hentry, bind_ret, bind_fetch.
  destruct (w (CountryWeather.forecast_request
                 (CountryWeather.latitude place) (CountryWeather.longitude place)))
    as [e|weatherData]; [reflexivity|].
  match goal with |- context [let '(_, _) := ?x in _] => now destruct x end.
Qed.

End CountryFacts.

Import Calls.

(** X1. Whatever the geocoder answers, [reverseGeocode] sends exactly one
    request: a GET of the Nominatim reverse endpoint with the coordinates
    in the query and the User-Agent header. *)
Theorem reverseGeocode_sends_one_request (latitude longitude : number) (w : World) :
  exists r : Request,
    fst (OpenMeteo.reverseGeocode latitude longitude w) = [Fetch r]
    /\ url r = "https://nominatim.openstreetmap.org/reverse?lat="
               ++ Number_toString latitude ++ "&lon=" ++ Number_toString longitude
               ++ "&format=json"
    /\ headers r = [("User-Agent", "Weather MCP Tool/1.0")].
Proof.
  exists (geocode_request latitude longitude).
  split; [apply RunFacts.reverseGeocode_trace | split; reflexivity].
Qed.

(** X2. A location that [reverseGeocode] returns never has an empty
    city or an empty country. *)
Theorem reverseGeocode_names_not_empty (latitude longitude : number) (w : World)
    (t : list Effect) (loc : OpenMeteo.Location) :
  OpenMeteo.reverseGeocode latitude longitude w = (t, inr loc) ->
  OpenMeteo.city loc <> "" /\ OpenMeteo.country loc <> "".
Proof. apply GeoFacts.reverseGeocode_nonempty. Qed.

Lemma reverseGeocode_names_not_empty_witness :
  OpenMeteo.city Examples.london <> "" /\ OpenMeteo.country Examples.london <> "".
Proof.
  apply (reverseGeocode_names_not_empty 51.5074 (-0.1278) Examples.london_world
           [Fetch (geocode_request 51.5074 (-0.1278))] Examples.london).
  reflexivity.
Defined.

(** X3. The place names [reverseGeocode] returns, for a body whose
    address fields are strings or absent: the city is the first of city,
    town and village that is present and not empty, "Unknown location"
    when there is none; the country is the address's country when present
    and not empty, "Unknown country" otherwise. A body without an address
    gives both defaults. *)
Theorem reverseGeocode_fallbacks (latitude longitude : number) (w : World)
    (props : list (string * JsValue)) :
  w (geocode_request latitude longitude) = inr (JObject props) ->
  (lookup "address" props = None ->
   OpenMeteo.reverseGeocode latitude longitude w
   = ([Fetch (geocode_request latitude longitude)],
      inr {| OpenMeteo.city := "Unknown location";
             OpenMeteo.country := "Unknown country" |}))
  /\ (forall (aprops : list (string * JsValue)) (c t v co : option string),
        lookup "address" props = Some (JObject aprops) ->
        lookup "city" aprops = option_map JString c ->
        lookup "town" aprops = option_map JString t ->
        lookup "village" aprops = option_map JString v ->
        lookup "country" aprops = option_map JString co ->
        exists loc : OpenMeteo.Location,
          OpenMeteo.reverseGeocode latitude longitude w
          = ([Fetch (geocode_request latitude longitude)], inr loc)
          /\ (forall s, c = Some s -> s <> "" -> OpenMeteo.city loc = s)
          /\ (c = None \/ c = Some "" ->
              forall s, t = Some s -> s <> "" -> OpenMeteo.city loc = s)
          /\ (c = None \/ c = Some "" -> t = None \/ t = Some "" ->
              forall s, v = Some s -> s <> "" -> OpenMeteo.city loc = s)
          /\ (c = None \/ c = Some "" -> t = None \/ t = Some "" ->
              v = None \/ v = Some "" -> OpenMeteo.city loc = "Unknown location")
          /\ (forall s, co = Some s -> s <> "" -> OpenMeteo.country loc = s)
          /\ (co = None \/ co = Some "" -> OpenMeteo.country loc = "Unknown country")).
Proof.
  intros Hw. split.
  - intros Ha. now apply GeoFacts.reverseGeocode_no_address with (props := props).
  - intros aprops c t v co Ha Hc Ht Hv Hco.
    eexists. split.
    { apply (GeoFacts.reverseGeocode_address latitude longitude w props aprops c t v co);
        assumption. }
    cbn [OpenMeteo.city OpenMeteo.country].
    assert (Hsome : forall s b, s <> "" -> Shared.or_else (Some s) b = s).
    { intros s b Hs. cbn. now destruct (String.eqb_spec s ""). }
    assert (Hnone : forall a b, a = None \/ a = Some "" -> Shared.or_else a b = b).
    { intros a b [-> | ->]; reflexivity. }
    repeat split.
    + intros s -> Hs. now apply Hsome.
    + intros Hc' s -> Hs. rewrite (Hnone c) by assumption. now apply Hsome.
    + intros Hc' Ht' s -> Hs. rewrite (Hnone c), (Hnone t) by assumption. now apply Hsome.
    + intros Hc' Ht' Hv'. now rewrite (Hnone c), (Hnone t), (Hnone v).
    + intros s -> Hs. now apply Hsome.
    + intros Hco'. now apply Hnone.
Qed.

Lemma reverseGeocode_fallbacks_witness :
  exists loc : OpenMeteo.Location,
    OpenMeteo.reverseGeocode 54.46 (-3.02) MoreExamples.village_world
    = ([Fetch (geocode_request 54.46 (-3.02))], inr loc)
    /\ OpenMeteo.city loc = "Grasmere"
    /\ OpenMeteo.country loc = "United Kingdom".
Proof.
  destruct (proj2 (reverseGeocode_fallbacks 54.46 (-3.02) MoreExamples.village_world
                     _ eq_refl)
              _ (Some "") None (Some "Grasmere") (Some "United Kingdom")
              eq_refl eq_refl eq_refl eq_refl eq_refl)
    as (loc & Hrun & _ & _ & Hv & _ & Hco & _).
  exists loc. split; [exact Hrun|]. split.
  - apply Hv; auto. discriminate.
  - apply Hco; auto. discriminate.
Defined.

(** X4. The handler of src/index.ts never throws: every call is
    answered. It sends the geocoding request first and at most the
    forecast request after it. *)
Theorem OpenMeteo_always_answers (latitude longitude : number) (unit : Js.Unit)
    (w : World) :
  exists (t : list Effect) (r : ToolResult),
    OpenMeteo.getWeather latitude longitude unit w = (t, inr r)
    /\ (http_calls t = [geocode_request latitude longitude]
        \/ http_calls t = [geocode_request latitude longitude;
                           OpenMeteo.forecast_request latitude longitude])
    /\ (isError r = false ->
        http_calls t = [geocode_request latitude longitude;
                        OpenMeteo.forecast_request latitude longitude]).
Proof.
  destruct (RunFacts.OpenMeteo_outcome latitude longitude unit w)
    as [(loc & json & v & data & _ & _ & _ & _ & E) | (t & m & E & Ht)];
    rewrite E; eexists _, _; (split; [reflexivity|]).
  - split; [right|intros _]; reflexivity.
  - split; [exact Ht|]. intros H. discriminate H.
Qed.

(** X5. An answer of src/index.ts that is not an error was written from
    two validated responses: the geocoder returned a location, the
    forecast body passed [weatherResultSchema], and the text is the
    template's for that location and that data. *)
Theorem OpenMeteo_answer_is_validated (latitude longitude : number) (unit : Js.Unit)
    (w : World) (t : list Effect) (r : ToolResult) :
  OpenMeteo.getWeather latitude longitude unit w = (t, inr r) ->
  isError r = false ->
  exists (loc : OpenMeteo.Location) (json v : JsValue) (data : OpenMeteo.WeatherResult),
    OpenMeteo.reverseGeocode latitude longitude w
    = ([Fetch (geocode_request latitude longitude)], inr loc)
    /\ w (OpenMeteo.forecast_request latitude longitude) = inr json
    /\ validate OpenMeteo.weatherResultSchema [] json = inr v
    /\ OpenMeteo.as_WeatherResult v = Some data
    /\ text r = OpenMeteo.weatherText loc data unit.
Proof.
  intros Hrun Hok.
  destruct (RunFacts.OpenMeteo_outcome latitude longitude unit w)
    as [(loc & json & v & data & Hg & Hw & Hv & Hd & E) | (t' & m & E & _)];
    rewrite E in Hrun; injection Hrun as <- <-.
  - now exists loc, json, v, data.
  - discriminate Hok.
Qed.

Lemma OpenMeteo_answer_is_validated_witness :
  exists (loc : OpenMeteo.Location) (json v : JsValue) (data : OpenMeteo.WeatherResult),
    OpenMeteo.reverseGeocode 51.5074 (-0.1278) Examples.london_world
    = ([Fetch (geocode_request 51.5074 (-0.1278))], inr loc)
    /\ Examples.london_world (OpenMeteo.forecast_request 51.5074 (-0.1278)) = inr json
    /\ validate OpenMeteo.weatherResultSchema [] json = inr v
    /\ OpenMeteo.as_WeatherResult v = Some data
    /\ OpenMeteo.weatherText Examples.london Examples.london_current celsius
       = OpenMeteo.weatherText loc data celsius.
Proof.
  eapply (OpenMeteo_answer_is_validated 51.5074 (-0.1278) celsius Examples.london_world
           _ {| isError := false;
                text := OpenMeteo.weatherText Examples.london Examples.london_current
                          celsius |});
    reflexivity.
Defined.

(** X6. The AccuWeather handler never throws: every call is answered.
    It sends at most two requests, and each request it sends carries, as
    its [apikey] parameter, the configured key, which is then not
    empty. *)
Theorem AccuWeather_always_answers (env : AccuWeather.Env)
    (store : option AccuWeather.IncomingRequest)
    (latitude longitude : option number) (unit : Js.Unit) (w : World) :
  exists (t : list Effect) (r : ToolResult),
    AccuWeather.getWeather env store latitude longitude unit w = (t, inr r)
    /\ (length (http_calls t) <= 2)%nat
    /\ forall q : Request,
         In q (http_calls t) ->
         exists apiKey : string,
           AccuWeather.ACCUWEATHER_API_KEY env = Some apiKey
           /\ apiKey <> ""
           /\ lookup "apikey" (query q) = Some apiKey.
Proof.
  destruct (RunFacts.AccuWeather_guards env store latitude longitude)
    as [(lat & long & k & Hlat & Hlong & Hk & Hne) | Hfail].
  - destruct (RunFacts.AccuWeather_guarded env store latitude longitude unit w
                lat long k Hlat Hlong Hk Hne)
      as [(loc & data & _ & _ & E)
         | (t & m & E & [(e & _ & Ht) | (loc & e & _ & _ & Ht)])];
      rewrite E; eexists _, _; (split; [reflexivity|]);
      cbn [http_calls]; rewrite ?Ht; cbn [length];
      (split; [lia|]); intros q Hq; cbn [In] in Hq;
      repeat (destruct Hq as [<- | Hq]; [exists k; repeat split; assumption|]);
      contradiction.
  - destruct (Hfail unit w) as [m E]. rewrite E. eexists _, _.
    split; [reflexivity|]. cbn [http_calls length In]. split; [lia|].
    intros q [].
Qed.

(** X7. An answer of the AccuWeather handler that is not an error came
    from two requests: the location search at the resolved coordinates,
    and the current conditions of the location whose [Key] the search
    returned; the text names the search's [LocalizedName] and country. *)
Theorem AccuWeather_answer_uses_location_key (env : AccuWeather.Env)
    (store : option AccuWeather.IncomingRequest)
    (latitude longitude : option number) (unit : Js.Unit) (w : World)
    (t : list Effect) (r : ToolResult) :
  AccuWeather.getWeather env store latitude longitude unit w = (t, inr r) ->
  isError r = false ->
  exists (lat long : number) (apiKey : string) (props cprops : list (string * JsValue))
         (loc : AccuWeather.Location) (data : AccuWeather.CurrentConditions),
    AccuWeather.resolve latitude store AccuWeather.cf_latitude = JNumber lat
    /\ AccuWeather.resolve longitude store AccuWeather.cf_longitude = JNumber long
    /\ AccuWeather.ACCUWEATHER_API_KEY env = Some apiKey
    /\ w (AccuWeather.location_request lat long apiKey) = inr (JObject props)
    /\ lookup "Key" props = Some (JString (AccuWeather.locationKey loc))
    /\ lookup "LocalizedName" props = Some (JString (AccuWeather.city loc))
    /\ lookup "Country" props = Some (JObject cprops)
    /\ lookup "LocalizedName" cprops = Some (JString (AccuWeather.country loc))
    /\ t = [Fetch (AccuWeather.location_request lat long apiKey);
            Fetch (AccuWeather.conditions_request (AccuWeather.locationKey loc) apiKey)]
    /\ text r = AccuWeather.weatherText loc data unit.
Proof.
  intros Hrun Hok.
  destruct (RunFacts.AccuWeather_guards env store latitude longitude)
    as [(lat & long & k & Hlat & Hlong & Hk & Hne) | Hfail].
  - destruct (RunFacts.AccuWeather_guarded env store latitude longitude unit w
                lat long k Hlat Hlong Hk Hne)
      as [(loc & data & Hloc & _ & E) | (t' & m & E & _)];
      rewrite E in Hrun; injection Hrun as <- <-; [|discriminate Hok].
    destruct (RunFacts.getLocationKey_inr _ _ _ _ _ _ Hloc)
      as (props & cprops & Hw & H1 & H2 & H3 & H4).
    exists lat, long, k, props, cprops, loc, data. repeat split; assumption.
  - destruct (Hfail unit w) as [m E]. rewrite E in Hrun.
    injection Hrun as <- <-. discriminate Hok.
Qed.

Lemma AccuWeather_answer_uses_location_key_witness :
  exists (lat long : number) (apiKey : string) (props cprops : list (string * JsValue))
         (loc : AccuWeather.Location) (data : AccuWeather.CurrentConditions),
    AccuWeather.resolve (Some 51.5) None AccuWeather.cf_latitude = JNumber lat
    /\ AccuWeather.resolve (Some (-0.1)) None AccuWeather.cf_longitude = JNumber long
    /\ AccuWeather.ACCUWEATHER_API_KEY Examples.accu_env = Some apiKey
    /\ Examples.accu_world (Some 55) (AccuWeather.location_request lat long apiKey)
       = inr (JObject props)
    /\ lookup "Key" props = Some (JString (AccuWeather.locationKey loc))
    /\ lookup "LocalizedName" props = Some (JString (AccuWeather.city loc))
    /\ lookup "Country" props = Some (JObject cprops)
    /\ lookup "LocalizedName" cprops = Some (JString (AccuWeather.country loc))
    /\ fst (AccuWeather.getWeather Examples.accu_env None (Some 51.5) (Some (-0.1))
              celsius (Examples.accu_world (Some 55)))
       = [Fetch (AccuWeather.location_request lat long apiKey);
          Fetch (AccuWeather.conditions_request (AccuWeather.locationKey loc) apiKey)]
    /\ AccuWeather.weatherText Examples.accu_london (Examples.accu_current (Some 55))
         celsius
       = AccuWeather.weatherText loc data celsius.
Proof.
  apply (AccuWeather_answer_uses_location_key Examples.accu_env None (Some 51.5)
           (Some (-0.1)) celsius (Examples.accu_world (Some 55))
           (fst (AccuWeather.getWeather Examples.accu_env None (Some 51.5) (Some (-0.1))
                   celsius (Examples.accu_world (Some 55))))
           {| isError := false;
              text := AccuWeather.weatherText Examples.accu_london
                        (Examples.accu_current (Some 55)) celsius |});
    reflexivity.
Defined.

(** X8. How the AccuWeather handler resolves a coordinate. Parameters
    that are given make the inbound request irrelevant; numbers in the
    request's [cf] object stand in for missing parameters; a [cf] latitude
    that is not a number (a string, say) does not: the call answers
    "Latitude is required and could not be found" and sends nothing. *)
Theorem AccuWeather_coordinate_fallback (env : AccuWeather.Env) (unit : Js.Unit)
    (w : World) :
  (forall (store : option AccuWeather.IncomingRequest) (lat long : number),
     AccuWeather.getWeather env store (Some lat) (Some long) unit w
     = AccuWeather.getWeather env None (Some lat) (Some long) unit w)
  /\ (forall lat long : number,
        AccuWeather.getWeather env
          (Some {| AccuWeather.cf :=
                     Some {| AccuWeather.cf_latitude := JNumber lat;
                             AccuWeather.cf_longitude := JNumber long |} |})
          None None unit w
        = AccuWeather.getWeather env None (Some lat) (Some long) unit w)
  /\ (forall (longitude : option number) (properties : AccuWeather.CfProperties),
        typeof (AccuWeather.cf_latitude properties) <> "number" ->
        AccuWeather.getWeather env (Some {| AccuWeather.cf := Some properties |})
          None longitude unit w
        = ([], inr {| isError := true;
                      text := "Latitude is required and could not be found" |})).
Proof.
  split; [|split].
  - reflexivity.
  - reflexivity.
  - intros longitude properties H. now apply HandlerFacts.AccuWeather_latitude.
Qed.

Lemma AccuWeather_coordinate_fallback_witness :
  AccuWeather.getWeather Examples.accu_env (Some MoreExamples.string_coordinates)
    None None fahrenheit (Examples.accu_world None)
  = ([], inr {| isError := true;
                text := "Latitude is required and could not be found" |}).
Proof.
  apply (proj2 (proj2 (AccuWeather_coordinate_fallback Examples.accu_env fahrenheit
                         (Examples.accu_world None)))
           None {| AccuWeather.cf_latitude := JString "51.5";
                   AccuWeather.cf_longitude := JString "-0.1" |}).
  discriminate.
Defined.

(** X9. When AccuWeather answers the conditions call with an empty
    array, the handler answers an error, after both requests. *)
Theorem AccuWeather_no_conditions (env : AccuWeather.Env)
    (store : option AccuWeather.IncomingRequest)
    (latitude longitude : option number) (unit : Js.Unit) (w : World)
    (lat long : number) (apiKey : string) (loc : AccuWeather.Location) :
  AccuWeather.resolve latitude store AccuWeather.cf_latitude = JNumber lat ->
  AccuWeather.resolve longitude store AccuWeather.cf_longitude = JNumber long ->
  AccuWeather.ACCUWEATHER_API_KEY env = Some apiKey ->
  apiKey <> "" ->
  AccuWeather.getLocationKey lat long apiKey w
  = ([Fetch (AccuWeather.location_request lat long apiKey)], inr loc) ->
  w (AccuWeather.conditions_request (AccuWeather.locationKey loc) apiKey)
  = inr (JArray []) ->
  exists (t : list Effect) (message : string),
    AccuWeather.getWeather env store latitude longitude unit w
    = (t, inr {| isError := true; text := message |})
    /\ http_calls t
       = [AccuWeather.location_request lat long apiKey;
          AccuWeather.conditions_request (AccuWeather.locationKey loc) apiKey].
Proof.
  intros Hlat Hlong Hk Hne Hloc Hw.
  assert (Hcond : exists e,
             AccuWeather.getCurrentConditions (AccuWeather.locationKey loc) apiKey w
             = ([Fetch (AccuWeather.conditions_request (AccuWeather.locationKey loc)
                          apiKey)], inl e)).
  { unfold AccuWeather.getCurrentConditions.
    rewrite RunFacts.bind_fetch, Hw. eexists. reflexivity. }
  destruct Hcond as [e0 Hcond].
  destruct (RunFacts.AccuWeather_guarded env store latitude longitude unit w
              lat long apiKey Hlat Hlong Hk Hne)
    as [(loc' & data & Hloc' & Hc' & _)
       | (t & m & E & [(e & Hloc' & _) | (loc' & e & Hloc' & _ & Ht)])].
  - rewrite Hloc in Hloc'. injection Hloc' as <-.
    rewrite Hcond in Hc'. discriminate Hc'.
  - rewrite Hloc in Hloc'. discriminate Hloc'.
  - rewrite Hloc in Hloc'. injection Hloc' as <-.
    exists t, m. split; assumption.
Qed.

Lemma AccuWeather_no_conditions_witness :
  exists (t : list Effect) (message : string),
    AccuWeather.getWeather Examples.accu_env None (Some 51.5) (Some (-0.1)) celsius
      MoreExamples.no_conditions_world
    = (t, inr {| isError := true; text := message |})
    /\ http_calls t
       = [AccuWeather.location_request 51.5 (-0.1) "secret";
          AccuWeather.conditions_request "328328" "secret"].
Proof.
  apply (AccuWeather_no_conditions Examples.accu_env None (Some 51.5) (Some (-0.1))
           celsius MoreExamples.no_conditions_world 51.5 (-0.1) "secret"
           Examples.accu_london); try reflexivity.
  discriminate.
Defined.

Module TrimFacts.
Import StringFacts TextFacts Shared.





End TrimFacts.




(** X12. The country server answers "Country not detected", and sends
    nothing, when no country can be had: the parameter is missing and
    there is no inbound request, or no CF-IPCountry header, or an empty
    one. An empty parameter is not replaced by the header: it is
    answered the same way. *)
Theorem country_not_detected (request : option CountryWeather.IncomingRequest)
    (country : option string) (w : World) :
  country = Some ""
  \/ (country = None /\ request = None)
  \/ (country = None
      /\ exists r : CountryWeather.IncomingRequest,
           request = Some r
           /\ (lookup "cf-ipcountry" (CountryWeather.request_headers r) = None
               \/ lookup "cf-ipcountry" (CountryWeather.request_headers r) = Some "")) ->
  CountryWeather.getWeather request country w
  = ([], inr {| isError := true; text := "Country not detected" |}).
Proof.
  unfold CountryWeather.getWeather, CountryWeather.resolve_country,
    CountryWeather.headers_get.
  change (CountryWeather.toLowerCase "CF-IPCountry") with "cf-ipcountry".
  intros [-> | [[-> ->] | [-> (r & -> & [-> | ->])]]]; reflexivity.
Qed.

Lemma country_not_detected_witness :
  CountryWeather.getWeather (Some Examples.british_request) (Some "") MoreExamples.uk_world
  = ([], inr {| isError := true; text := "Country not detected" |}).
Proof.
  apply (country_not_detected (Some Examples.british_request) (Some "")
           MoreExamples.uk_world).
  left. reflexivity.
Defined.

(** X13. The country server, when the geocoder found the country but
    the forecast body has no [current]: the call answers "Weather data
    not available", after the geocoding request and the forecast request
    at the coordinates of the first result. *)
Theorem country_without_current (request : option CountryWeather.IncomingRequest)
    (country : option string) (c : string) (w : World)
    (props wprops : list (string * JsValue)) (entry : JsValue) (rest : list JsValue)
    (place : CountryWeather.GeocodingEntry) :
  CountryWeather.resolve_country country request = Some c ->
  c <> "" ->
  w (CountryWeather.geocoding_request c) = inr (JObject props) ->
  lookup "results" props = Some (JArray (entry :: rest)) ->
  CountryWeather.as_GeocodingEntry entry = Some place ->
  w (CountryWeather.forecast_request
       (CountryWeather.latitude place) (CountryWeather.longitude place))
  = inr (JObject wprops) ->
  lookup "current" wprops = None \/ lookup "current" wprops = Some JNull ->
  CountryWeather.getWeather request country w
  = ([Fetch (CountryWeather.geocoding_request c);
      Fetch (CountryWeather.forecast_request
               (CountryWeather.latitude place) (CountryWeather.longitude place))],
     inr {| isError := true; text := "Weather data not available" |}).
Proof.
  intros Hc Hne Hw Hres Hentry Hf Hcur.
  rewrite (CountryFacts.to_forecast request country c w props entry rest place
             Hc Hne Hw Hres Hentry), Hf.
  unfold CountryWeather.member, property. cbn [props_of].
  destruct Hcur as [-> | ->]; reflexivity.
Qed.

Lemma country_without_current_witness :
  CountryWeather.getWeather (Some Examples.british_request) None
    MoreExamples.uk_no_current_world
  = ([Fetch (CountryWeather.geocoding_request "GB");
      Fetch (CountryWeather.forecast_request 54.75844 (-2.69531))],
     inr {| isError := true; text := "Weather data not available" |}).
Proof.
  apply (country_without_current (Some Examples.british_request) None "GB"
           MoreExamples.uk_no_current_world
           [("results", JArray [MoreExamples.uk_entry; JObject [("name", JString "Ukraine")]])]
           [("error", JBool true)] MoreExamples.uk_entry
           [JObject [("name", JString "Ukraine")]] MoreExamples.uk_place);
    try reflexivity.
  - discriminate.
  - left. reflexivity.
Defined.

(** X14. The country server has no [try]: when a request fails, the
    failure leaves the handler as it is, and no error answer is made.
    This holds for the geocoding request and, after a first result was
    found, for the forecast request. *)
Theorem country_failures_escape (request : option CountryWeather.IncomingRequest)
    (country : option string) (c : string) (w : World) (e : JsValue) :
  CountryWeather.resolve_country country request = Some c ->
  c <> "" ->
  (w (CountryWeather.geocoding_request c) = inl e ->
   CountryWeather.getWeather request country w
   = ([Fetch (CountryWeather.geocoding_request c)], inl e))
  /\ (forall (props : list (string * JsValue)) (entry : JsValue) (rest : list JsValue)
             (place : CountryWeather.GeocodingEntry),
        w (CountryWeather.geocoding_request c) = inr (JObject props) ->
        lookup "results" props = Some (JArray (entry :: rest)) ->
        CountryWeather.as_GeocodingEntry entry = Some place ->
        w (CountryWeather.forecast_request
             (CountryWeather.latitude place) (CountryWeather.longitude place))
        = inl e ->
        CountryWeather.getWeather request country w
        = ([Fetch (CountryWeather.geocoding_request c);
            Fetch (CountryWeather.forecast_request
                     (CountryWeather.latitude place) (CountryWeather.longitude place))],
           inl e)).
Proof.
  intros Hc Hne. split.
  - intros Hw. unfold CountryWeather.getWeather. rewrite Hc.
    destruct (String.eqb_spec c "") as [E|_]; [contradiction|].
    now rewrite RunFacts.bind_fetch, Hw.
  - intros props entry rest place Hw Hres Hentry Hf.
    now rewrite (CountryFacts.to_forecast request country c w props entry rest place
                   Hc Hne Hw Hres Hentry), Hf.
Qed.

Lemma country_failures_escape_witness :
  CountryWeather.getWeather (Some Examples.british_request) None MoreExamples.offline
  = ([Fetch (CountryWeather.geocoding_request "GB")], inl (JString "fetch failed"))
  /\ CountryWeather.getWeather (Some Examples.british_request) None
       MoreExamples.uk_no_forecast_world
     = ([Fetch (CountryWeather.geocoding_request "GB");
         Fetch (CountryWeather.forecast_request 54.75844 (-2.69531))],
        inl (JString "fetch failed")).
Proof.
  split.
  - apply (proj1 (country_failures_escape (Some Examples.british_request) None "GB"
                    MoreExamples.offline (JString "fetch failed") eq_refl
                    ltac:(discriminate))).
    reflexivity.
  - apply (proj2 (country_failures_escape (Some Examples.british_request) None "GB"
                    MoreExamples.uk_no_forecast_world (JString "fetch failed") eq_refl
                    ltac:(discriminate))
             [("results",
               JArray [MoreExamples.uk_entry; JObject [("name", JString "Ukraine")]])]
             MoreExamples.uk_entry [JObject [("name", JString "Ukraine")]]
             MoreExamples.uk_place); reflexivity.
Defined.

(** X15. The country server, when both providers answer: the forecast
    is asked at the coordinates of the first geocoding result, whatever
    results follow it, and the text has the name and country of that
    result, the readings as the provider gave them, in Celsius, and the
    description of the condition code. *)
Theorem country_answer (request : option CountryWeather.IncomingRequest)
    (country : option string) (c : string) (w : World)
    (props wprops : list (string * JsValue)) (entry cur : JsValue) (rest : list JsValue)
    (place : CountryWeather.GeocodingEntry) (current : CountryWeather.Current) :
  CountryWeather.resolve_country country request = Some c ->
  c <> "" ->
  w (CountryWeather.geocoding_request c) = inr (JObject props) ->
  lookup "results" props = Some (JArray (entry :: rest)) ->
  CountryWeather.as_GeocodingEntry entry = Some place ->
  w (CountryWeather.forecast_request
       (CountryWeather.latitude place) (CountryWeather.longitude place))
  = inr (JObject wprops) ->
  lookup "current" wprops = Some cur ->
  CountryWeather.as_Current cur = Some current ->
  CountryWeather.getWeather request country w
  = ([Fetch (CountryWeather.geocoding_request c);
      Fetch (CountryWeather.forecast_request
               (CountryWeather.latitude place) (CountryWeather.longitude place))],
     inr {| isError := false;
            text :=
              "Weather in " ++ CountryWeather.name place ++ ", "
              ++ CountryWeather.country place ++ ":" ++ Shared.nl
              ++ "• Temperature: "
              ++ Number_toString (CountryWeather.temperature_2m current) ++ "°C"
              ++ Shared.nl
              ++ "• Humidity: "
              ++ Number_toString (CountryWeather.relative_humidity_2m current) ++ "%"
              ++ Shared.nl
              ++ "• Wind Speed: "
              ++ Number_toString (CountryWeather.wind_speed_10m current) ++ " km/h"
              ++ Shared.nl
              ++ "• Conditions: "
              ++ Shared.getWeatherDescription (CountryWeather.weather_code current) |}).
Proof.
  intros Hc Hne Hw Hres Hentry Hf Hcur Hcurrent.
  rewrite (CountryFacts.to_forecast request country c w props entry rest place
             Hc Hne Hw Hres Hentry), Hf.
  unfold CountryWeather.member at 1. rewrite RunFacts.bind_ret.
  unfold property. cbn [props_of]. rewrite Hcur.
  rewrite (CountryFacts.current_truthy _ _ Hcurrent). cbn [negb].
  unfold typed. rewrite Hcurrent, RunFacts.bind_ret. reflexivity.
Qed.

Lemma country_answer_witness :
  exists r : ToolResult,
    CountryWeather.getWeather (Some Examples.british_request) None MoreExamples.uk_world
    = ([Fetch (CountryWeather.geocoding_request "GB");
        Fetch (CountryWeather.forecast_request 54.75844 (-2.69531))], inr r)
    /\ isError r = false
    /\ lines (text r)
       = [ "Weather in United Kingdom, United Kingdom:";
           "• Temperature: 15.2°C";
           "• Humidity: 70%";
           "• Wind Speed: 12.3 km/h";
           "• Conditions: Overcast" ].
Proof.
  eexists. split.
  - eapply (country_answer (Some Examples.british_request) None "GB" MoreExamples.uk_world
             [("results",
               JArray [MoreExamples.uk_entry; JObject [("name", JString "Ukraine")]])]
             _ MoreExamples.uk_entry _ [JObject [("name", JString "Ukraine")]]
             MoreExamples.uk_place MoreExamples.uk_current); try reflexivity.
    discriminate.
  - split; reflexivity.
Defined.



(** X17. What [getWeatherDescription] can return: a string of the table
    or "Unknown", never the empty string. Numbers that are equal as
    numbers get the same description, and a number that is no integer
    gets "Unknown". *)
Theorem getWeatherDescription_range (code : number) :
  Shared.getWeatherDescription code <> ""
  /\ (Shared.getWeatherDescription code = "Unknown"
      \/ In (Shared.getWeatherDescription code) (map snd Shared.weatherCodes))
  /\ (forall code' : number,
        code == code' ->
        Shared.getWeatherDescription code' = Shared.getWeatherDescription code)
  /\ ((forall z : Z, ~ code == inject_Z z) ->
      Shared.getWeatherDescription code = "Unknown").
Proof.
  split; [|split; [|split]].
  - unfold Shared.getWeatherDescription, Shared.weatherCodes. cbn [Shared.at_number].
    repeat match goal with
      | |- context [Qeq_bool ?a ?b] => destruct (Qeq_bool a b); [discriminate|]
      end.
    discriminate.
  - unfold Shared.getWeatherDescription, Shared.weatherCodes.
    cbn [Shared.at_number map snd].
    repeat match goal with
      | |- context [Qeq_bool ?a ?b] =>
          destruct (Qeq_bool a b); [right; cbn; tauto|]
      end.
    left. reflexivity.
  - intros code' H. unfold Shared.getWeatherDescription. f_equal.
    induction Shared.weatherCodes as [|[k v] rest IH]; [reflexivity|].
    cbn [Shared.at_number]. now rewrite IH, (Qeqb_comp _ _ H _ _ (Qeq_refl _)).
  - intros H. apply SharedFacts.getWeatherDescription_unknown.
    intros k _. apply H.
Qed.

Lemma getWeatherDescription_range_witness :
  Shared.getWeatherDescription (6 # 2) = Shared.getWeatherDescription 3
  /\ Shared.getWeatherDescription 1.5 = "Unknown".
Proof.
  split.
  - apply (proj1 (proj2 (proj2 (getWeatherDescription_range 3))) (6 # 2)). reflexivity.
  - apply (proj2 (proj2 (proj2 (getWeatherDescription_range 1.5)))).
    intros z H. unfold Qeq in H. cbn in H. lia.
Defined.

(** X18. What [weatherResultSchema] accepts: exactly the objects whose
    [current] is an object with the four fields [temperature_2m],
    [relative_humidity_2m], [wind_speed_10m] and [weather_code] all
    numbers. What it returns holds those four numbers and nothing else
    of the body. *)
Theorem weatherResultSchema_accepts (json : JsValue) :
  (forall v : JsValue,
     validate OpenMeteo.weatherResultSchema [] json = inr v ->
     exists (props cprops : list (string * JsValue)) (t h ws c : number),
       json = JObject props
       /\ lookup "current" props = Some (JObject cprops)
       /\ lookup "temperature_2m" cprops = Some (JNumber t)
       /\ lookup "relative_humidity_2m" cprops = Some (JNumber h)
       /\ lookup "wind_speed_10m" cprops = Some (JNumber ws)
       /\ lookup "weather_code" cprops = Some (JNumber c)
       /\ v = JObject
                [ ("current",
                   JObject
                     [ ("temperature_2m", JNumber t);
                       ("relative_humidity_2m", JNumber h);
                       ("wind_speed_10m", JNumber ws);
                       ("weather_code", JNumber c) ]) ])
  /\ (forall (props cprops : list (string * JsValue)) (t h ws c : number),
        json = JObject props ->
        lookup "current" props = Some (JObject cprops) ->
        lookup "temperature_2m" cprops = Some (JNumber t) ->
        lookup "relative_humidity_2m" cprops = Some (JNumber h) ->
        lookup "wind_speed_10m" cprops = Some (JNumber ws) ->
        lookup "weather_code" cprops = Some (JNumber c) ->
        validate OpenMeteo.weatherResultSchema [] json
        = inr (JObject
                 [ ("current",
                    JObject
                      [ ("temperature_2m", JNumber t);
                        ("relative_humidity_2m", JNumber h);
                        ("wind_speed_10m", JNumber ws);
                        ("weather_code", JNumber c) ]) ])).
Proof.
  split.
  - unfold OpenMeteo.weatherResultSchema. intros v H.
    destruct (ZodFacts.validate_object_inr _ _ _ _ H) as [props ->].
    apply ZodFacts.validate_object_cons_inr in H.
    destruct H as (cur & out & Hcur & Hout & ->).
    rewrite ZodFacts.validate_object_nil in Hout. injection Hout as <-.
    destruct (ZodFacts.validate_object_inr _ _ _ _ Hcur) as [cprops E].
    pose proof (RunFacts.property_JObject _ _ _ E) as Hlook.
    rewrite E in Hcur.
    apply ZodFacts.validate_object_cons_inr in Hcur.
    destruct Hcur as (t & o1 & Ht & H1 & ->).
    apply ZodFacts.validate_object_cons_inr in H1.
    destruct H1 as (h & o2 & Hh & H2 & E1). injection E1 as ->.
    apply ZodFacts.validate_object_cons_inr in H2.
    destruct H2 as (ws & o3 & Hws & H3 & E2). injection E2 as ->.
    apply ZodFacts.validate_object_cons_inr in H3.
    destruct H3 as (c & o4 & Hc & H4 & E3). injection E3 as ->.
    rewrite ZodFacts.validate_object_nil in H4. injection H4 as <-.
    apply ZodFacts.validate_number_inr in Ht, Hh, Hws, Hc.
    destruct Ht as (t' & Et & ->), Hh as (h' & Eh & ->),
             Hws as (ws' & Ews & ->), Hc as (c' & Ec & ->).
    exists props, cprops, t', h', ws', c'.
    repeat split; try reflexivity; try assumption;
      now apply RunFacts.property_JNumber.
  - intros props cprops t h ws c -> Hcur Ht Hh Hws Hc.
    unfold OpenMeteo.weatherResultSchema. cbn [validate].
    unfold property, has_property. cbn [props_of]. rewrite Hcur.
    cbn [validate]. unfold property, has_property. cbn [props_of].
    rewrite Ht, Hh, Hws, Hc. reflexivity.
Qed.

Lemma weatherResultSchema_accepts_witness :
  validate OpenMeteo.weatherResultSchema [] Examples.london_forecast
  = inr Examples.bare_forecast.
Proof.
  apply (proj2 (weatherResultSchema_accepts Examples.london_forecast)
           _ [ ("time", JString "2024-05-01T12:00");
               ("temperature_2m", JNumber 15.2);
               ("relative_humidity_2m", JNumber 70);
               ("wind_speed_10m", JNumber 12.3);
               ("weather_code", JNumber 3) ] 15.2 70 12.3 3 eq_refl);
    reflexivity.
Defined.

(** X19. [getCurrentConditions] reads the first element of the array
    AccuWeather answers with and nothing after it. Humidity and wind are
    optional there: for a first element with a text and both
    temperatures, a humidity that is a number or absent, and no wind, it
    returns that observation, with the humidity as given and no wind. *)
Theorem getCurrentConditions_first_element (locationKey apiKey : string) (w : World)
    (props tprops mprops iprops : list (string * JsValue)) (rest : list JsValue)
    (weatherText mu iu : string) (metric imperial : number) (humidity : option number) :
  w (AccuWeather.conditions_request locationKey apiKey)
  = inr (JArray (JObject props :: rest)) ->
  lookup "WeatherText" props = Some (JString weatherText) ->
  lookup "Temperature" props = Some (JObject tprops) ->
  lookup "Metric" tprops = Some (JObject mprops) ->
  lookup "Value" mprops = Some (JNumber metric) ->
  lookup "Unit" mprops = Some (JString mu) ->
  lookup "Imperial" tprops = Some (JObject iprops) ->
  lookup "Value" iprops = Some (JNumber imperial) ->
  lookup "Unit" iprops = Some (JString iu) ->
  lookup "RelativeHumidity" props = option_map JNumber humidity ->
  lookup "Wind" props = None ->
  AccuWeather.getCurrentConditions locationKey apiKey w
  = ([Fetch (AccuWeather.conditions_request locationKey apiKey)],
     inr {| AccuWeather.WeatherText := weatherText;
            AccuWeather.Temperature :=
              {| AccuWeather.Metric :=
                   {| AccuWeather.Value := metric; AccuWeather.Unit := mu |};
                 AccuWeather.Imperial :=
                   {| AccuWeather.Value := imperial; AccuWeather.Unit := iu |} |};
            AccuWeather.RelativeHumidity := humidity;
            AccuWeather.Wind := None |}).
Proof.
  intros Hw Htext Htemp Hm Hmv Hmu Hi Hiv Hiu Hh Hwind.
  unfold AccuWeather.getCurrentConditions.
  rewrite RunFacts.bind_fetch, Hw. cbn [AccuWeather.element0].
  rewrite RunFacts.bind_ret.
  unfold parse, AccuWeather.accuWeatherCurrentConditionsSchema,
    AccuWeather.valueUnitSchema.
  cbn [validate]. unfold property, has_property. cbn [props_of].
  rewrite Htext, Htemp, Hh, Hwind.
  cbn [validate]. unfold property, has_property. cbn [props_of].
  rewrite Hm, Hi.
  cbn [validate]. unfold property, has_property. cbn [props_of].
  rewrite Hmv, Hmu, Hiv, Hiu.
  destruct humidity; reflexivity.
Qed.

Lemma getCurrentConditions_first_element_witness :
  AccuWeather.getCurrentConditions "328328" "secret"
    (fun _ =>
       inr (JArray
              [ JObject
                  [ ("WeatherText", JString "Sunny");
                    ("Temperature",
                     JObject [ ("Metric", Examples.value_unit 21 "C");
                               ("Imperial", Examples.value_unit 70 "F") ]) ];
                JNull ]))
  = ([Fetch (AccuWeather.conditions_request "328328" "secret")],
     inr {| AccuWeather.WeatherText := "Sunny";
            AccuWeather.Temperature := Examples.dual 21 "C" 70 "F";
            AccuWeather.RelativeHumidity := None;
            AccuWeather.Wind := None |}).
Proof.
  eapply (getCurrentConditions_first_element "328328" "secret" _ _ _ _ _ [JNull]
            "Sunny" "C" "F" 21 70 None); reflexivity.
Defined.

(** X20. What the caller of src/index.ts reads when the geocoding
    request fails: the failure's message when it is an error object with a
    message, the failure itself when it is a string, and "Unknown Error",
    with the failure logged, otherwise. The forecast is not asked for. *)
Theorem OpenMeteo_failure_message (latitude longitude : number) (unit : Js.Unit)
    (w : World) (e : JsValue) :
  w (geocode_request latitude longitude) = inl e ->
  (forall s : string, e = JString s ->
     OpenMeteo.getWeather latitude longitude unit w
     = ([Fetch (geocode_request latitude longitude)],
        inr {| isError := true; text := s |}))
  /\ (forall (props : list (string * JsValue)) (message : string),
        e = JObject props ->
        lookup "message" props = Some (JString message) ->
        OpenMeteo.getWeather latitude longitude unit w
        = ([Fetch (geocode_request latitude longitude)],
           inr {| isError := true; text := message |}))
  /\ ((forall s : string, e <> JString s) ->
      (forall (props : list (string * JsValue)) (message : string),
         e = JObject props -> lookup "message" props <> Some (JString message)) ->
      OpenMeteo.getWeather latitude longitude unit w
      = ([Fetch (geocode_request latitude longitude);
          ConsoleError [JString "Unable to get error message for error"; e]],
         inr {| isError := true; text := "Unknown Error" |})).
Proof.
  intros Hw.
  assert (Hrun : OpenMeteo.getWeather latitude longitude unit w
                 = let '(t, r) :=
                     (message <- Shared.getErrorMessage e ;;
                      ret {| isError := true; text := message |}) w in
                   (Fetch (geocode_request latitude longitude) :: t, r)).
  { unfold OpenMeteo.getWeather, OpenMeteo.reverseGeocode.
    rewrite RunFacts.try_catch_eq, RunFacts.bind_eq, RunFacts.bind_fetch.
    change {| url := _; query := []; headers := [("User-Agent", _)] |}
      with (geocode_request latitude longitude).
    rewrite Hw. cbn [fst snd app].
    now destruct ((message <- Shared.getErrorMessage e ;;
                   ret {| isError := true; text := message |}) w). }
  rewrite Hrun. unfold bind.
  split; [|split].
  - intros s ->. reflexivity.
  - intros props message -> H. unfold Shared.getErrorMessage, has_property, property.
    cbn [typeof truthy props_of]. rewrite H. reflexivity.
  - intros Hs Ho. unfold Shared.getErrorMessage, has_property, property.
    destruct e as [| |b|x|z|s|d|props|items|props]; try reflexivity.
    + now destruct b.
    + cbn [typeof truthy]. now destruct (Qeq_bool x 0).
    + cbn [typeof truthy]. now destruct (z =? 0)%Z.
    + now destruct (Hs s).
    + cbn [typeof truthy props_of].
      destruct (lookup "message" props) as [[| |b|x|z|m|d|ps|items|ps]|] eqn:E;
        try reflexivity.
      now destruct (Ho props m eq_refl).
Qed.

Lemma OpenMeteo_failure_message_witness :
  OpenMeteo.getWeather 51.5074 (-0.1278) celsius MoreExamples.offline
  = ([Fetch (geocode_request 51.5074 (-0.1278))],
     inr {| isError := true; text := "fetch failed" |}).
Proof.
  apply (proj1 (OpenMeteo_failure_message 51.5074 (-0.1278) celsius MoreExamples.offline
                  (JString "fetch failed") eq_refl) "fetch failed" eq_refl).
Defined.
